(** * Temporal cross-validation splitters: [AnchorSplit] and
      [MonthlyTimeSeriesSplit]

    A shallow embedding of [src/validacao_cruzada.py] and
    [src/time_split_mensal.py] together with the properties their
    specification states about them.

    Conventions.
    - A [pd.Timestamp] is the number of nanoseconds since 1970-01-01T00:00
      (an integer, [Z]); pandas' bounds on representable timestamps are not
      modelled.
    - Python's [//] and [%] with a positive divisor are [Z.div] and
      [Z.modulo] (both floor).
    - A generator is modelled by the list of what it emits, in order:
      warnings, yielded folds, and a final raised exception if any.
    - The collaborators that are not part of the repository
      ([pd.DatetimeIndex], [np.issubdtype], [CustomBusinessDay],
      sklearn's [TimeSeriesSplit]) are the fields of two interfaces,
      [Pandas] and [BucketSplitter]; every property holds for all their
      implementations, under the contract the specification gives them
      where one is needed. *)

From Stdlib Require Import ZArith Bool Lia String List Sorted FinFun.
From Stdlib Require DecimalString.
Import ListNotations.
Local Open Scope Z_scope.

(* ================================================================== *)
(** ** Calendar arithmetic behind [pd.Timestamp] *)
(* ================================================================== *)

Module Calendar.

(** Nanoseconds in one day: [pd.Timedelta(days=1)]. *)
Definition NS_PER_DAY : Z := 86400000000000.

(** A [pd.Timestamp]: nanoseconds since the epoch. *)
Abbreviation Timestamp := Z (only parsing).

(** [pd.Timedelta(days=n)] *)
Definition Timedelta_days (n : Z) : Z := n * NS_PER_DAY.

(** Day number (days since 1970-01-01) of a timestamp. *)
Definition day_number (t : Timestamp) : Z := t / NS_PER_DAY.

(** Proleptic Gregorian calendar, on day numbers.  The civil year is
    counted from 1 March so that the leap day is the last of the year;
    [era] is the 400-year cycle, [doe] the day of the era, [yoe] the year
    of the era, [doy] the day of the March-based year and [mp] the
    March-based month (0 = March). *)
Definition era_of (z : Z) : Z := (z + 719468) / 146097.
Definition doe_of (z : Z) : Z := (z + 719468) mod 146097.
Definition yoe_of (doe : Z) : Z :=
  (doe - doe / 1460 + doe / 36524 - doe / 146096) / 365.
Definition doy_of (doe : Z) : Z :=
  let yoe := yoe_of doe in doe - (365 * yoe + yoe / 4 - yoe / 100).
Definition mp_of (doy : Z) : Z := (5 * doy + 2) / 153.

Definition civil_month (z : Z) : Z :=
  let mp := mp_of (doy_of (doe_of z)) in
  if mp <? 10 then mp + 3 else mp - 9.

Definition civil_year (z : Z) : Z :=
  yoe_of (doe_of z) + era_of z * 400 + (if civil_month z <=? 2 then 1 else 0).

Definition civil_day (z : Z) : Z :=
  let doy := doy_of (doe_of z) in
  doy - (153 * mp_of doy + 2) / 5 + 1.

(** Day number of the civil date [y]-[m]-[d]. *)
Definition days_from_civil (y m d : Z) : Z :=
  let y' := if m <=? 2 then y - 1 else y in
  let era := y' / 400 in
  let yoe := y' - era * 400 in
  let mp := (m + 9) mod 12 in
  let doy := (153 * mp + 2) / 5 + d - 1 in
  let doe := yoe * 365 + yoe / 4 - yoe / 100 + doy in
  era * 146097 + doe - 719468.

(** The accessors of [pd.Timestamp] the two splitters use. *)
Definition year (t : Timestamp) : Z := civil_year (day_number t).
Definition month (t : Timestamp) : Z := civil_month (day_number t).
Definition day (t : Timestamp) : Z := civil_day (day_number t).

(** [Timestamp.weekday()]: Monday is 0, Sunday is 6.
    1970-01-01 was a Thursday. *)
Definition weekday (t : Timestamp) : Z := (day_number t + 3) mod 7.

(** [pd.Timestamp(year, month, day)]: midnight of that civil date. *)
Definition mkTimestamp (y m d : Z) : Timestamp :=
  days_from_civil y m d * NS_PER_DAY.

(** [Series.dt.to_period('M')]: the month bucket, as pandas' period
    ordinal (months since January 1970). *)
Definition to_period_M (t : Timestamp) : Z :=
  (year t - 1970) * 12 + (month t - 1).

(** The month ordinal written with the March-based year and month; it
    agrees with [12 * year + (month - 1)] (lemma [month_index_civil]). *)
Definition month_index (z : Z) : Z :=
  12 * (era_of z * 400 + yoe_of (doe_of z)) + mp_of (doy_of (doe_of z)) + 2.

(** How many days of [t]'s month, from the 1st through [t]'s own day, fall
    on [t]'s weekday: [t] is the n-th such weekday of its month. *)
Definition weekday_occurrence (t : Timestamp) : Z :=
  Z.of_nat (length (filter
    (fun d => weekday (mkTimestamp (year t) (month t) d) =? weekday t)
    (map Z.of_nat (seq 1 (Z.to_nat (day t)))))).

(** The [n] days ending at [a], most recent first. *)
Definition days_back (a : Timestamp) (n : nat) : list Timestamp :=
  map (fun j => a - Timedelta_days (Z.of_nat j)) (seq 0 n).

(** Monday to Friday *)
Definition is_weekday (t : Timestamp) : bool := weekday t <? 5.

End Calendar.

Import Calendar.


(* ================================================================== *)
(** ** Exceptions, generators and external collaborators *)
(* ================================================================== *)

Inductive exn : Type :=
| ValueError (msg : string)
| TypeError (msg : string)
| IndexError (msg : string).

Inductive result (A : Type) : Type :=
| Ok (a : A)
| Err (e : exn).
Arguments Ok {A} a.
Arguments Err {A} e.

(** What a generator emits.  [Warn k n] is the call
    [warnings.warn(f"Fold {k}: treino com {n} linhas (<252).", RuntimeWarning)];
    [Yield train test] is [yield train, test]; [Raise e] ends the
    generator with an exception. *)
Inductive event (I : Type) : Type :=
| Warn (fold_no : Z) (rows : nat)
| Yield (train_idx test_idx : list I)
| Raise (e : exn).
Arguments Warn {I} fold_no rows.
Arguments Yield {I} train_idx test_idx.
Arguments Raise {I} e.

(** The yielded folds of a run, in order. *)
Fixpoint folds_of {I : Type} (evs : list (event I)) : list (list I * list I) :=
  match evs with
  | [] => []
  | Yield tr te :: evs' => (tr, te) :: folds_of evs'
  | _ :: evs' => folds_of evs'
  end.

(** The pandas / numpy operations [AnchorSplit] relies on. *)
Class Pandas : Type := {
  (** whatever a caller may pass as [X] *)
  array_like : Type;
  np_dtype : Type;
  (** [pd.DatetimeIndex(X)]: the index's dtype and its values, or the
      exception of a failed conversion *)
  pd_DatetimeIndex : array_like -> result (np_dtype * list Timestamp);
  (** [np.issubdtype(dtype, np.datetime64)] *)
  np_issubdtype_datetime64 : np_dtype -> result bool;
  (** [anchor + CustomBusinessDay(n=n, holidays=holidays)] *)
  add_CustomBusinessDay : Timestamp -> Z -> list Timestamp -> Timestamp
}.

(** sklearn's [TimeSeriesSplit(n_splits, max_train_size, test_size,
    gap).split(a)] for an array [a] of [n] buckets: the folds as pairs of
    bucket positions, or the exception it raises. *)
Class BucketSplitter : Type := {
  TimeSeriesSplit_split :
    Z -> option Z -> option Z -> Z -> nat -> result (list (list nat * list nat))
}.

(** The guarantee the specification gives for the bucket splitter: with a
    non-negative gap, each fold's test buckets come strictly after its
    train buckets. *)
Definition expanding_window_contract (S : BucketSplitter) : Prop :=
  forall n_splits max_train_size test_size gap n folds,
    0 <= gap ->
    TimeSeriesSplit_split n_splits max_train_size test_size gap n = Ok folds ->
    Forall (fun f => forall i j, In i (fst f) -> In j (snd f) -> (i < j)%nat) folds.

(** [np.where(mask)[0]]: the positions at which [mask] holds. *)
Fixpoint where_from (i : nat) (mask : list bool) : list nat :=
  match mask with
  | [] => []
  | b :: mask' =>
      if b then i :: where_from (S i) mask' else where_from (S i) mask'
  end.
Definition np_where (mask : list bool) : list nat := where_from 0 mask.

(* ================================================================== *)
(** ** [AnchorSplit] ([src/validacao_cruzada.py]) *)
(* ================================================================== *)

Module AnchorSplit.

Record t : Type := {
  exec_date : Timestamp;
  n_splits : Z;
  holidays : list Timestamp;
  test_size : Z;
  min_date : option Timestamp;
  _wk : Z;
  _ord : Z
}.

(** [__init__].  The arguments are already typed ([exec_date] a timestamp,
    [test_size_bd] an integer, a falsy [min_date] is [None]), so the
    conversions [pd.Timestamp(..)] and [int(..)] cannot fail; the
    constructor performs no other check. *)
Definition __init__ (exec_date : Timestamp) (n_splits : Z)
    (holidays : list Timestamp) (test_size_bd : Z)
    (min_date : option Timestamp) : result t :=
  Ok {| exec_date := exec_date;
        n_splits := n_splits;
        holidays := holidays;
        test_size := test_size_bd;
        min_date := min_date;
        _wk := weekday exec_date;
        _ord := 1 + (day exec_date - 1) / 7 |}.

(** Lines 56-58 of [_anchor_for_year]: the anchor before snapping. *)
Definition anchor_candidate (self : t) (year : Z) : Timestamp :=
  let first := mkTimestamp year (month (exec_date self)) 1 in
  let delta := (_wk self - weekday first) mod 7 in
  first + Timedelta_days (delta + 7 * (_ord self - 1)).

(** The loop condition [anchor.weekday() >= 5 or anchor in self.holidays]. *)
Definition not_business_day (hols : list Timestamp) (anchor : Timestamp) : bool :=
  (5 <=? weekday anchor) || existsb (Z.eqb anchor) hols.

(** The loop of lines 60-61 as a big-step relation: [snaps hols a r] when
    the loop entered with [anchor = a] exits with [anchor = r]. *)
Inductive snaps (hols : list Timestamp) : Timestamp -> Timestamp -> Prop :=
| snaps_exit a :
    not_business_day hols a = false -> snaps hols a a
| snaps_step a r :
    not_business_day hols a = true ->
    snaps hols (a - Timedelta_days 1) r -> snaps hols a r.

(** The same loop as a function, with a bound on its iterations. *)
Fixpoint snap_back (hols : list Timestamp) (fuel : nat) (anchor : Timestamp)
  : Timestamp :=
  if not_business_day hols anchor then
    match fuel with
    | O => anchor
    | S fuel' => snap_back hols fuel' (anchor - Timedelta_days 1)
    end
  else anchor.

(** Iterations that always suffice ([snap_back_lands]): every 7 consecutive
    days hold 5 weekdays, which must all be distinct holidays for the loop
    to go on. *)
Definition snap_fuel (hols : list Timestamp) : nat :=
  (7 * (length hols / 5) + 7)%nat.

Definition _anchor_for_year (self : t) (year : Z) : Timestamp :=
  snap_back (holidays self) (snap_fuel (holidays self))
            (anchor_candidate self year).

Section WithPandas.
Context {P : Pandas}.

(** [np.where(dates < anchor)[0]] *)
Definition train_positions (dates : list Timestamp) (anchor : Timestamp)
  : list nat :=
  np_where (map (fun d => d <? anchor) dates).

(** [np.where((dates >= anchor) & (dates <= test_end))[0]] *)
Definition test_positions (dates : list Timestamp) (anchor test_end : Timestamp)
  : list nat :=
  np_where (map (fun d => (anchor <=? d) && (d <=? test_end)) dates).

(** [anchor + CustomBusinessDay(n=self.test_size - 1, holidays=self.holidays)] *)
Definition test_end_of (self : t) (anchor : Timestamp) : Timestamp :=
  add_CustomBusinessDay anchor (test_size self - 1) (holidays self).

(** [self.min_date is not None and anchor < self.min_date] *)
Definition before_min_date (self : t) (anchor : Timestamp) : bool :=
  match min_date self with
  | Some md => anchor <? md
  | None => false
  end.

(** The body of the [while] loop of [split] (lines 78-102) at the loop
    state [(folds, year)]; [rest] is the loop resumed at its condition. *)
Definition loop_body (self : t) (dates : list Timestamp)
    (rest : Z -> Z -> list (event nat)) (folds year : Z) : list (event nat) :=
  let anchor := _anchor_for_year self year in
  if before_min_date self anchor then []
  else
    let test_end := test_end_of self anchor in
    let test_idx := test_positions dates anchor test_end in
    match test_idx with
    | [] => rest folds (year - 1)
    | _ :: _ =>
        let train_idx := train_positions dates anchor in
        (if (length train_idx <? 252)%nat
         then [Warn (folds + 1) (length train_idx)]
         else [])
        ++ Yield train_idx test_idx :: rest (folds + 1) (year - 1)
    end.

(** The [while] loop of [split] (lines 77-102), entered with the given
    [folds] and [year]: the condition
    [folds < self.n_splits and year >= dates[0].year], then the body.
    [fuel] bounds the iterations; [years_left] always suffices
    ([split_loop_fuel]). *)
Fixpoint split_loop (self : t) (dates : list Timestamp) (fuel : nat)
    (folds year : Z) : list (event nat) :=
  if negb (folds <? n_splits self) then []
  else
    match dates with
    | [] => [Raise (IndexError "index 0 is out of bounds for axis 0 with size 0"%string)]
    | d0 :: _ =>
        if negb (Calendar.year d0 <=? year) then []
        else
          match fuel with
          | O => []
          | S fuel' =>
              loop_body self dates (split_loop self dates fuel') folds year
          end
    end.

(** The number of years from [year] down to the year of [dates[0]]. *)
Definition years_left (dates : list Timestamp) (year : Z) : nat :=
  match dates with
  | [] => O
  | d0 :: _ => Z.to_nat (year - Calendar.year d0 + 1)
  end.

(** What the generator emits from the loop state [(folds, year)] on. *)
Definition split_from (self : t) (dates : list Timestamp) (folds year : Z)
  : list (event nat) :=
  split_loop self dates (years_left dates year) folds year.

Definition split (self : t) (X : array_like) : list (event nat) :=
  match pd_DatetimeIndex X with
  | Err e => [Raise e]
  | Ok (dtype, dates) =>
      match np_issubdtype_datetime64 dtype with
      | Err e => [Raise e]
      | Ok false => [Raise (ValueError "X deve conter dtype datetime64[ns]."%string)]
      | Ok true => split_from self dates 0 (Calendar.year (exec_date self) - 1)
      end
  end.

Definition get_n_splits (self : t) : Z := n_splits self.

(** [X] is accepted by the two checks of lines 71-73 and holds [dates]. *)
Definition date_typed (X : array_like) (dates : list Timestamp) : Prop :=
  exists dtype, pd_DatetimeIndex X = Ok (dtype, dates) /\
                np_issubdtype_datetime64 dtype = Ok true.

(** The fold of one year: its train and test positions. *)
Definition fold_of_year (self : t) (dates : list Timestamp) (year : Z)
  : list nat * list nat :=
  let anchor := _anchor_for_year self year in
  (train_positions dates anchor,
   test_positions dates anchor (test_end_of self anchor)).


(** No leakage in a fold [(tr, te)] over [dates]: no position is on both
    sides; for the anchor of some year every train row is dated strictly
    before it and every test row on or after it; so every train row is
    dated strictly before every test row. *)
Definition fold_separated (self : t) (dates : list Timestamp)
    (tr te : list nat) : Prop :=
  (forall i, In i tr -> ~ In i te)
  /\ (exists year,
        let anchor := _anchor_for_year self year in
        (forall i, In i tr -> exists d, nth_error dates i = Some d /\ d < anchor)
        /\ (forall j, In j te -> exists d, nth_error dates j = Some d /\ anchor <= d))
  /\ (forall i j di dj, In i tr -> In j te ->
        nth_error dates i = Some di -> nth_error dates j = Some dj -> di < dj).

End WithPandas.

End AnchorSplit.

(* ================================================================== *)
(** ** [MonthlyTimeSeriesSplit] ([src/time_split_mensal.py]) *)
(* ================================================================== *)

Module MonthlyTimeSeriesSplit.

(** A row of the DataFrame [X]: its index label and the value of its
    [date_column], already of a date/time type. *)
Record Row : Type := { index : Z; date : Timestamp }.

Definition DataFrame : Type := list Row.

Record t : Type := {
  date_column : string;
  n_splits : Z;
  max_train_size : option Z;
  test_size : option Z;
  gap : Z;
  min_days_in_last_month : option Z
}.

Definition __init__ (date_column : string) (n_splits : Z)
    (max_train_size test_size : option Z) (gap : Z)
    (min_days_in_last_month : option Z) : t :=
  {| date_column := date_column;
     n_splits := n_splits;
     max_train_size := max_train_size;
     test_size := test_size;
     gap := gap;
     min_days_in_last_month := min_days_in_last_month |}.

(** [X['_Month']] of a row *)
Definition _Month (r : Row) : Z := to_period_M (date r).

(** [Series.unique()]: the distinct values, in order of first appearance. *)
Fixpoint unique (l : list Z) : list Z :=
  match l with
  | [] => []
  | x :: l' => x :: filter (fun y => negb (y =? x)) (unique l')
  end.

(** [a[-1]] *)
Definition last_item (a : list Z) : option Z :=
  match a with
  | [] => None
  | _ :: _ => Some (last a 0)
  end.

(** [Series.max()] of a Series of integers ([None] when it is empty). *)
Definition series_max (l : list Z) : option Z :=
  match l with
  | [] => None
  | x :: l' => Some (fold_left Z.max l' x)
  end.

(** [Series.isin(values)] at one value *)
Definition isin (m : Z) (values : list Z) : bool := existsb (Z.eqb m) values.

(** [X[X['_Month'].isin(months)].index] *)
Definition rows_in (X : DataFrame) (months : list Z) : list Z :=
  map index (filter (fun r => isin (_Month r) months) X).

(** [a[idx]] for an array of positions [idx]. *)
Fixpoint take (a : list Z) (idx : list nat) : result (list Z) :=
  match idx with
  | [] => Ok []
  | i :: idx' =>
      match nth_error a i with
      | None => Err (IndexError "index out of bounds"%string)
      | Some v =>
          match take a idx' with
          | Ok vs => Ok (v :: vs)
          | Err e => Err e
          end
      end
  end.

(** Lines 85-97 of [split]: the bucket list handed to [TimeSeriesSplit]. *)
Definition month_buckets (self : t) (X : DataFrame) : result (list Z) :=
  let unique_months := unique (map _Month X) in
  match min_days_in_last_month self with
  | None => Ok unique_months
  | Some min_days =>
      match last_item unique_months with
      | None => Err (IndexError "index -1 is out of bounds for axis 0 with size 0"%string)
      | Some last_month =>
          let last_month_data := filter (fun r => _Month r =? last_month) X in
          match series_max (map (fun r => day (date r)) last_month_data) with
          | Some max_day_in_last_month =>
              if max_day_in_last_month <? min_days
              then Ok (removelast unique_months)
              else Ok unique_months
          | None => Ok unique_months
          end
      end
  end.

(** The [for] loop of lines 107-116. *)
Fixpoint yield_folds (X : DataFrame) (unique_months : list Z)
    (month_splits : list (list nat * list nat)) : list (event Z) :=
  match month_splits with
  | [] => []
  | (train_month_idx, test_month_idx) :: rest =>
      match take unique_months train_month_idx with
      | Err e => [Raise e]
      | Ok train_months =>
          match take unique_months test_month_idx with
          | Err e => [Raise e]
          | Ok test_months =>
              Yield (rows_in X train_months) (rows_in X test_months)
              :: yield_folds X unique_months rest
          end
      end
  end.

Section WithSplitter.
Context {S : BucketSplitter}.

Definition split (self : t) (X : DataFrame) : list (event Z) :=
  match month_buckets self X with
  | Err e => [Raise e]
  | Ok unique_months =>
      match TimeSeriesSplit_split (n_splits self) (max_train_size self)
              (test_size self) (gap self) (length unique_months) with
      | Err e => [Raise e]
      | Ok month_splits => yield_folds X unique_months month_splits
      end
  end.

Definition get_n_splits (self : t) : Z := n_splits self.

End WithSplitter.

(** Rows in chronological date order. *)
Definition chronological (X : DataFrame) : Prop :=
  Sorted Z.le (map date X).

(** The row index is unique (the data model's invariant on datasets). *)
Definition unique_index (X : DataFrame) : Prop := NoDup (map index X).

(** No leakage in a fold [(tr, te)] of [X]: the fold selects the rows of
    two lists of months, every train month strictly before every test
    month, hence every train row dated strictly before every test row;
    and, the row index being unique, the two index sets are disjoint and
    ordered in the same way. *)
Definition fold_separated (X : DataFrame) (tr te : list Z) : Prop :=
  exists train_months test_months,
    tr = rows_in X train_months
    /\ te = rows_in X test_months
    /\ (forall m1 m2, In m1 train_months -> In m2 test_months -> m1 < m2)
    /\ (forall r1 r2, In (_Month r1) train_months -> In (_Month r2) test_months ->
          _Month r1 < _Month r2 /\ date r1 < date r2)
    /\ (unique_index X ->
          (forall l, In l tr -> ~ In l te)
          /\ forall r1 r2, In r1 X -> In r2 X ->
               In (index r1) tr -> In (index r2) te ->
               _Month r1 < _Month r2 /\ date r1 < date r2).

End MonthlyTimeSeriesSplit.

(* ================================================================== *)
(** ** Reference implementations of the collaborators

    Used to run the splitters on concrete inputs: they follow what pandas
    and scikit-learn do with such inputs.  The properties hold for every
    implementation of the interfaces; the concrete runs and the
    counterexamples are about these ones. *)
(* ================================================================== *)

Module Reference.

(** Arrays tagged with their element type: dates, 64-bit integers, or
    objects that are no dates. *)
Inductive dtype : Type := datetime64 | int64 | object_.

Definition is_datetime64 (d : dtype) : bool :=
  match d with datetime64 => true | _ => false end.

(** A business day of the calendar: Monday to Friday and no holiday's date. *)
Definition is_busday (hols : list Timestamp) (t : Timestamp) : bool :=
  (weekday t <? 5)
  && negb (existsb (fun h => day_number h =? day_number t) hols).

(** Move day by day in direction [dir] until a business day. *)
Fixpoint roll (hols : list Timestamp) (dir : Z) (fuel : nat) (t : Timestamp)
  : Timestamp :=
  if is_busday hols t then t
  else match fuel with
       | O => t
       | S fuel' => roll hols dir fuel' (t + Timedelta_days dir)
       end.

(** [n] business days from [t] in direction [dir]. *)
Fixpoint busday_steps (hols : list Timestamp) (dir : Z) (n : nat)
    (t : Timestamp) : Timestamp :=
  match n with
  | O => t
  | S n' =>
      busday_steps hols dir n'
        (roll hols dir (AnchorSplit.snap_fuel hols) (t + Timedelta_days dir))
  end.

(** Business-day offset: a positive count rolls back to a business day
    and advances, any other count rolls forward and goes back. *)
Definition busday_offset (t : Timestamp) (n : Z) (hols : list Timestamp)
  : Timestamp :=
  if 0 <? n
  then busday_steps hols 1 (Z.to_nat n)
         (roll hols (-1) (AnchorSplit.snap_fuel hols) t)
  else busday_steps hols (-1) (Z.to_nat (- n))
         (roll hols 1 (AnchorSplit.snap_fuel hols) t).

(** [pd.DatetimeIndex(X)] converts before the dtype is looked at: dates
    are kept, integers are read as nanoseconds since the epoch, and both
    give an index of dtype [datetime64]; so does an array without
    elements, and an object that is no date makes the conversion raise. *)
Definition to_DatetimeIndex (X : dtype * list Z) : result (dtype * list Timestamp) :=
  match fst X, snd X with
  | datetime64, l | int64, l => Ok (datetime64, l)
  | object_, [] => Ok (datetime64, [])
  | object_, _ :: _ =>
      Err (TypeError "object is not convertible to datetime"%string)
  end.

Definition pandas : Pandas :=
  {| array_like := dtype * list Z;
     np_dtype := dtype;
     pd_DatetimeIndex := to_DatetimeIndex;
     np_issubdtype_datetime64 := fun d => Ok (is_datetime64 d);
     add_CustomBusinessDay := busday_offset |}.

(** Python's [a[lo:hi]] on [a = np.arange(n)]: a negative bound counts
    from the end, and both bounds are clipped to the array. *)
Definition py_slice (n lo hi : Z) : list nat :=
  let clip x := if x <? 0 then Z.max (x + n) 0 else Z.min x n in
  seq (Z.to_nat (clip lo)) (Z.to_nat (clip hi - clip lo)).

(** Python's [range(start, stop, step)] for a non-zero [step]. *)
Definition py_range (start stop step : Z) : list Z :=
  let count :=
    if 0 <? step then (stop - start + step - 1) / step
    else (start - stop - step - 1) / (- step) in
  map (fun k => start + Z.of_nat k * step) (seq 0 (Z.to_nat count)).

(** scikit-learn's [TimeSeriesSplit(n_splits, max_train_size, test_size,
    gap).split] over [n] samples: [n_splits] test windows of [test_size]
    samples (default [n // (n_splits + 1)]) at the end, each with the
    samples up to [gap] before it as train, or the last [max_train_size]
    of them. *)
Definition expanding_window (n_splits : Z) (max_train_size test_size : option Z)
    (gap : Z) (n : nat) : result (list (list nat * list nat)) :=
  let n_samples := Z.of_nat n in
  let n_folds := n_splits + 1 in
  let test_size :=
    match test_size with Some ts => ts | None => n_samples / n_folds end in
  if n_splits <=? 1 then Err (ValueError "n_splits must be at least 2"%string)
  else if n_samples <? n_folds
  then Err (ValueError "Cannot have number of folds greater than the number of samples"%string)
  else if n_samples - gap - test_size * n_splits <=? 0
  then Err (ValueError "Too many splits for number of samples"%string)
  else if test_size =? 0
  then Err (ValueError "range() arg 3 must not be zero"%string)
  else
    Ok (map (fun test_start =>
               let train_end := test_start - gap in
               (match max_train_size with
                | Some m =>
                    if negb (m =? 0) && (m <? train_end)
                    then py_slice n_samples (train_end - m) train_end
                    else py_slice n_samples 0 train_end
                | None => py_slice n_samples 0 train_end
                end,
                py_slice n_samples test_start (test_start + test_size)))
            (py_range (n_samples - n_splits * test_size) n_samples test_size)).

Definition splitter : BucketSplitter :=
  {| TimeSeriesSplit_split := expanding_window |}.

(** The demo of [src/validacao_cruzada.py]: executed on 2025-01-10, 7
    folds, no holidays, data from 2018-01-01 on. *)
Definition demo_cv : AnchorSplit.t :=
  {| AnchorSplit.exec_date := mkTimestamp 2025 1 10;
     AnchorSplit.n_splits := 7;
     AnchorSplit.holidays := [];
     AnchorSplit.test_size := 42;
     AnchorSplit.min_date := Some (mkTimestamp 2018 1 1);
     AnchorSplit._wk := 4;
     AnchorSplit._ord := 2 |}.

(** The same splitter with the five weekdays 8-12 January 2024 and Friday
    5 January 2024 as holidays. *)
Definition holiday_week_cv : AnchorSplit.t :=
  {| AnchorSplit.exec_date := mkTimestamp 2025 1 10;
     AnchorSplit.n_splits := 7;
     AnchorSplit.holidays :=
       [mkTimestamp 2024 1 12; mkTimestamp 2024 1 11; mkTimestamp 2024 1 10;
        mkTimestamp 2024 1 9; mkTimestamp 2024 1 8; mkTimestamp 2024 1 5];
     AnchorSplit.test_size := 42;
     AnchorSplit.min_date := Some (mkTimestamp 2018 1 1);
     AnchorSplit._wk := 4;
     AnchorSplit._ord := 2 |}.

(** Business days from [start], [n] of them ([pd.date_range(freq='B')]). *)
Fixpoint bdate_range (start : Timestamp) (n : nat) : list Timestamp :=
  match n with
  | O => []
  | S n' =>
      let s := roll [] 1 2 start in
      s :: bdate_range (s + Timedelta_days 1) n'
  end.

(** Two dates on and after the 2024 anchor of [demo_cv], Friday
    2024-01-12. *)
Definition two_dates : list Timestamp :=
  [mkTimestamp 2024 1 12; mkTimestamp 2024 1 15].

(** Two dates with nothing in the test window of 2023. *)
Definition gap_dates : list Timestamp :=
  [mkTimestamp 2022 1 14; mkTimestamp 2024 1 12].

(** A monthly splitter with 2 folds that wants 10 days in the last month,
    and a frame of 8 rows over January-April 2023 whose April stops on
    the 3rd. *)
Definition monthly_cv : MonthlyTimeSeriesSplit.t :=
  MonthlyTimeSeriesSplit.__init__ "date" 2 None None 0 (Some 10).

Definition df_2023 : MonthlyTimeSeriesSplit.DataFrame :=
  map (fun p => {| MonthlyTimeSeriesSplit.index := fst p;
                   MonthlyTimeSeriesSplit.date := snd p |})
      [(0, mkTimestamp 2023 1 5); (1, mkTimestamp 2023 1 20);
       (2, mkTimestamp 2023 2 10); (3, mkTimestamp 2023 2 25);
       (4, mkTimestamp 2023 3 15); (5, mkTimestamp 2023 3 28);
       (6, mkTimestamp 2023 4 2); (7, mkTimestamp 2023 4 3)].

(** A monthly splitter with 2 folds and a gap of -1, and one with a gap
    of 0 and no threshold on the last month. *)
Definition negative_gap_cv : MonthlyTimeSeriesSplit.t :=
  MonthlyTimeSeriesSplit.__init__ "date" 2 None None (-1) None.

Definition plain_cv : MonthlyTimeSeriesSplit.t :=
  MonthlyTimeSeriesSplit.__init__ "date" 2 None None 0 None.

(** The rows of [df_2023] with an index that repeats 0, 1. *)
Definition df_repeated_index : MonthlyTimeSeriesSplit.DataFrame :=
  map (fun p => {| MonthlyTimeSeriesSplit.index := fst p;
                   MonthlyTimeSeriesSplit.date := snd p |})
      [(0, mkTimestamp 2023 1 5); (1, mkTimestamp 2023 1 20);
       (0, mkTimestamp 2023 2 10); (1, mkTimestamp 2023 2 25);
       (0, mkTimestamp 2023 3 15); (1, mkTimestamp 2023 3 28);
       (0, mkTimestamp 2023 4 2); (1, mkTimestamp 2023 4 3)].



End Reference.

(* ================================================================== *)
(** ** The month labels of [describe_splits] *)
(* ================================================================== *)

Module Labels.

(** [str(n)] of an integer, as [Series.astype(str)] renders it. *)
Definition str (n : Z) : string :=
  DecimalString.NilZero.string_of_int (Z.to_int n).

(** [s[2:]], as [Series.str[2:]] slices it. *)
Definition from_2 (s : string) : string :=
  substring 2 (String.length s - 2) s.

(** Lines 169-171 and 175-177 of [describe_splits], for one row:
    [date.dt.month.astype(str) + '/' + date.dt.year.astype(str).str[2:]]. *)
Definition month_label (t : Timestamp) : string :=
  (str (month t) ++ "/" ++ from_2 (str (year t)))%string.

End Labels.
Example ts_2025_01_10 :
  let t := mkTimestamp 2025 1 10 in
  (year t, month t, day t, weekday t) = (2025, 1, 10, 4).
Proof. vm_compute. reflexivity. Qed.

Lemma yoe_bounds doe : 0 <= doe < 146097 -> 0 <= yoe_of doe <= 399.
Proof. unfold yoe_of. intros. Z.div_mod_to_equations. lia. Qed.

Lemma doy_bounds doe : 0 <= doe < 146097 -> 0 <= doy_of doe <= 365.
Proof. unfold doy_of, yoe_of. intros. Z.div_mod_to_equations. lia. Qed.

Lemma yoe_mono a b : 0 <= a <= b -> b < 146097 -> yoe_of a <= yoe_of b.
Proof. unfold yoe_of. intros. Z.div_mod_to_equations. lia. Qed.

Lemma doe_range z : 0 <= doe_of z < 146097.
Proof. unfold doe_of. apply Z.mod_pos_bound. lia. Qed.

Lemma mp_bounds doy : 0 <= doy <= 365 -> 0 <= mp_of doy <= 11.
Proof. unfold mp_of. intros. Z.div_mod_to_equations. lia. Qed.

Lemma civil_day_pos z : 1 <= civil_day z.
Proof. unfold civil_day, mp_of. Z.div_mod_to_equations. lia. Qed.

Lemma civil_month_range z : 1 <= civil_month z <= 12.
Proof.
  unfold civil_month.
  pose proof (mp_bounds _ (doy_bounds _ (doe_range z))).
  destruct (Z.ltb_spec (mp_of (doy_of (doe_of z))) 10); lia.
Qed.

Lemma month_index_civil z :
  12 * civil_year z + (civil_month z - 1) = month_index z.
Proof.
  unfold month_index, civil_year, civil_month.
  pose proof (mp_bounds _ (doy_bounds _ (doe_range z))).
  destruct (Z.ltb_spec (mp_of (doy_of (doe_of z))) 10);
    [destruct (Z.leb_spec (mp_of (doy_of (doe_of z)) + 3) 2)
    |destruct (Z.leb_spec (mp_of (doy_of (doe_of z)) - 9) 2)]; lia.
Qed.

Lemma month_index_mono z1 z2 : z1 <= z2 -> month_index z1 <= month_index z2.
Proof.
  intros Hle. unfold month_index.
  pose proof (doe_range z1) as R1. pose proof (doe_range z2) as R2.
  pose proof (yoe_bounds _ R1). pose proof (yoe_bounds _ R2).
  pose proof (mp_bounds _ (doy_bounds _ R1)).
  pose proof (mp_bounds _ (doy_bounds _ R2)).
  assert (He : era_of z1 <= era_of z2)
    by (unfold era_of; apply Z.div_le_mono; lia).
  destruct (Z.eq_dec (era_of z1) (era_of z2)) as [E|E]; [|lia].
  assert (Hd : doe_of z1 <= doe_of z2).
  { unfold era_of, doe_of in *. Z.div_mod_to_equations. lia. }
  pose proof (yoe_mono (doe_of z1) (doe_of z2) ltac:(lia) ltac:(lia)).
  destruct (Z.eq_dec (yoe_of (doe_of z1)) (yoe_of (doe_of z2))) as [Y|Y]; [|lia].
  assert (doy_of (doe_of z1) <= doy_of (doe_of z2))
    by (unfold doy_of; rewrite Y; lia).
  assert (mp_of (doy_of (doe_of z1)) <= mp_of (doy_of (doe_of z2)))
    by (unfold mp_of; apply Z.div_le_mono; lia).
  lia.
Qed.

Lemma day_number_mono t1 t2 : t1 <= t2 -> day_number t1 <= day_number t2.
Proof. unfold day_number, NS_PER_DAY. intros. apply Z.div_le_mono; lia. Qed.

Lemma to_period_M_mono t1 t2 : t1 <= t2 -> to_period_M t1 <= to_period_M t2.
Proof.
  intros H. apply day_number_mono in H. apply month_index_mono in H.
  rewrite <- !month_index_civil in H. unfold to_period_M, year, month. lia.
Qed.

Lemma to_period_M_lt t1 t2 : to_period_M t1 < to_period_M t2 -> t1 < t2.
Proof.
  intros H. destruct (Z.lt_ge_cases t1 t2) as [|G]; [assumption|].
  apply to_period_M_mono in G. lia.
Qed.

Lemma days_from_civil_roundtrip z :
  days_from_civil (civil_year z) (civil_month z) (civil_day z) = z.
Proof.
  pose proof (doe_range z) as R.
  pose proof (yoe_bounds _ R) as Hy.
  pose proof (mp_bounds _ (doy_bounds _ R)) as Hm.
  unfold days_from_civil, civil_year, civil_day.
  set (yoe := yoe_of (doe_of z)) in *.
  set (mp := mp_of (doy_of (doe_of z))) in *.
  assert (Hmp : (civil_month z + 9) mod 12 = mp).
  { unfold civil_month. fold mp. destruct (Z.ltb_spec mp 10);
      Z.div_mod_to_equations; lia. }
  assert (Hy' : (if civil_month z <=? 2
                 then yoe + era_of z * 400 + (if civil_month z <=? 2 then 1 else 0) - 1
                 else yoe + era_of z * 400 + (if civil_month z <=? 2 then 1 else 0))
                = yoe + era_of z * 400)
    by (destruct (civil_month z <=? 2); lia).
  rewrite Hy', Hmp.
  assert (He : (yoe + era_of z * 400) / 400 = era_of z)
    by (Z.div_mod_to_equations; lia).
  rewrite He.
  replace (yoe + era_of z * 400 - era_of z * 400) with yoe by lia.
  fold yoe. unfold doy_of. fold yoe.
  unfold era_of, doe_of. Z.div_mod_to_equations. lia.
Qed.

Lemma day_number_add_days t k :
  day_number (t + Timedelta_days k) = day_number t + k.
Proof. unfold day_number, Timedelta_days. apply Z.div_add. discriminate. Qed.

Lemma day_number_sub_day t :
  day_number (t - Timedelta_days 1) = day_number t - 1.
Proof.
  replace (t - Timedelta_days 1) with (t + Timedelta_days (-1))
    by (unfold Timedelta_days; lia).
  rewrite day_number_add_days. lia.
Qed.

Lemma day_number_mkTimestamp y m d : day_number (mkTimestamp y m d) = days_from_civil y m d.
Proof. unfold day_number, mkTimestamp. apply Z.div_mul. discriminate. Qed.

Lemma weekday_range t : 0 <= weekday t < 7.
Proof. unfold weekday. apply Z.mod_pos_bound. lia. Qed.

Lemma weekday_add_days t k :
  weekday (t + Timedelta_days k) = (weekday t + k) mod 7.
Proof.
  unfold weekday. rewrite day_number_add_days.
  rewrite Zplus_mod_idemp_l. f_equal. lia.
Qed.

(* ================================================================== *)
(** ** The anchor of a year *)
(* ================================================================== *)

Lemma weekday_sub_days t k :
  weekday (t - Timedelta_days k) = (weekday t - k) mod 7.
Proof.
  replace (t - Timedelta_days k) with (t + Timedelta_days (- k))
    by (unfold Timedelta_days; lia).
  rewrite weekday_add_days. f_equal.
Qed.

Lemma mkTimestamp_day y m d :
  mkTimestamp y m d = mkTimestamp y m 1 + Timedelta_days (d - 1).
Proof. unfold mkTimestamp, Timedelta_days, days_from_civil. lia. Qed.

Lemma mkTimestamp_of_date t :
  day_number (mkTimestamp (year t) (month t) (day t)) = day_number t.
Proof.
  rewrite day_number_mkTimestamp. unfold year, month, day.
  apply days_from_civil_roundtrip.
Qed.

(** Days [1..n] congruent to [r] modulo 7, for [r] in [1..7]. *)
Lemma count_congruent_days (n : nat) (r : Z) :
  1 <= r <= 7 ->
  Z.of_nat (length (filter (fun d => (d - r) mod 7 =? 0)
                           (map Z.of_nat (seq 1 n))))
  = (Z.of_nat n + 7 - r) / 7.
Proof.
  intros Hr. induction n as [|n IH].
  - cbn [seq map filter length]. Z.div_mod_to_equations. lia.
  - rewrite seq_S, map_app, filter_app, length_app, Nat2Z.inj_add, IH.
    cbn [map filter Nat.add].
    destruct (Z.eqb_spec ((Z.of_nat (S n) - r) mod 7) 0) as [E|E];
      cbn [length]; Z.div_mod_to_equations; lia.
Qed.

Lemma weekday_occurrence_formula t :
  weekday_occurrence t = 1 + (day t - 1) / 7.
Proof.
  unfold weekday_occurrence.
  pose proof (civil_day_pos (day_number t)) as Hd. fold (day t) in Hd.
  set (r := (day t - 1) mod 7 + 1).
  assert (Hr : 1 <= r <= 7) by (unfold r; Z.div_mod_to_equations; lia).
  rewrite (filter_ext _ (fun d => (d - r) mod 7 =? 0)).
  - rewrite count_congruent_days by assumption.
    rewrite Z2Nat.id by lia. unfold r. Z.div_mod_to_equations. lia.
  - intros d.
    rewrite (mkTimestamp_day _ _ d).
    assert (Hw : weekday t
                 = weekday (mkTimestamp (year t) (month t) 1
                            + Timedelta_days (day t - 1))).
    { rewrite <- mkTimestamp_day. unfold weekday.
      now rewrite mkTimestamp_of_date. }
    rewrite Hw, !weekday_add_days.
    set (w := weekday (mkTimestamp (year t) (month t) 1)).
    unfold r.
    destruct (Z.eqb_spec ((w + (d - 1)) mod 7) ((w + (day t - 1)) mod 7));
      destruct (Z.eqb_spec ((d - ((day t - 1) mod 7 + 1)) mod 7) 0);
      try reflexivity; exfalso; Z.div_mod_to_equations; lia.
Qed.

Lemma anchor_candidate_weekday self year :
  0 <= AnchorSplit._wk self < 7 ->
  weekday (AnchorSplit.anchor_candidate self year) = AnchorSplit._wk self.
Proof.
  intros Hwk. unfold AnchorSplit.anchor_candidate.
  rewrite weekday_add_days.
  pose proof (weekday_range
                (mkTimestamp year (month (AnchorSplit.exec_date self)) 1)).
  Z.div_mod_to_equations. lia.
Qed.

(** *** The snapping loop *)

Lemma filter_map_comm {A B} (p : B -> bool) (f : A -> B) l :
  filter p (map f l) = map f (filter (fun x => p (f x)) l).
Proof.
  induction l as [|x l IH]; [reflexivity|].
  cbn [map filter]. destruct (p (f x)); cbn [map]; now rewrite IH.
Qed.

Lemma weekdays_in_a_week a :
  length (filter is_weekday (days_back a 7)) = 5%nat.
Proof.
  unfold days_back. rewrite filter_map_comm, length_map.
  rewrite (filter_ext _ (fun j => (weekday a - Z.of_nat j) mod 7 <? 5))
    by (intros j; unfold is_weekday; now rewrite weekday_sub_days).
  pose proof (weekday_range a) as Hw.
  assert (Hc : weekday a = 0 \/ weekday a = 1 \/ weekday a = 2 \/
               weekday a = 3 \/ weekday a = 4 \/ weekday a = 5 \/
               weekday a = 6) by lia.
  destruct Hc as [E|[E|[E|[E|[E|[E|E]]]]]]; rewrite E; reflexivity.
Qed.

Lemma map_seq_from {A} (f : nat -> A) m : forall n,
  map f (seq n m) = map (fun j => f (n + j)%nat) (seq 0 m).
Proof.
  induction m as [|m IH]; intros n; [reflexivity|].
  cbn [seq map]. rewrite Nat.add_0_r. f_equal.
  rewrite IH, <- seq_shift, map_map. apply map_ext.
  intros j. f_equal. lia.
Qed.

Lemma days_back_app a n m :
  days_back a (n + m)
  = days_back a n ++ days_back (a - Timedelta_days (Z.of_nat n)) m.
Proof.
  unfold days_back. rewrite seq_app, map_app. f_equal.
  cbn [Nat.add]. rewrite map_seq_from. apply map_ext.
  intros j. unfold Timedelta_days. lia.
Qed.

Lemma weekdays_in_weeks q : forall a,
  length (filter is_weekday (days_back a (7 * q))) = (5 * q)%nat.
Proof.
  induction q as [|q IH]; intros a; [reflexivity|].
  replace (7 * S q)%nat with (7 + 7 * q)%nat by lia.
  rewrite days_back_app, filter_app, length_app, weekdays_in_a_week, IH. lia.
Qed.

Lemma days_back_NoDup a n : NoDup (days_back a n).
Proof.
  unfold days_back. apply Injective_map_NoDup; [|apply seq_NoDup].
  intros i j. unfold Timedelta_days, NS_PER_DAY. lia.
Qed.

Lemma In_days_back a n t :
  In t (days_back a n) <->
  exists j, (j < n)%nat /\ t = a - Timedelta_days (Z.of_nat j).
Proof.
  unfold days_back. rewrite in_map_iff. split.
  - intros (j & <- & Hj). apply in_seq in Hj. exists j. split; [lia|easy].
  - intros (j & Hj & ->). exists j. split; [easy|]. apply in_seq. lia.
Qed.

(** A run of [k] days without a business day holds [5 * (k / 7)] distinct
    holidays. *)
Lemma holidays_in_a_run hols a (k : nat) :
  (forall j, (j < k)%nat ->
     AnchorSplit.not_business_day hols (a - Timedelta_days (Z.of_nat j)) = true) ->
  (5 * (k / 7) <= length hols)%nat.
Proof.
  intros Hbad.
  rewrite <- (weekdays_in_weeks (k / 7) a).
  apply NoDup_incl_length.
  - apply NoDup_filter, days_back_NoDup.
  - intros t Ht. apply filter_In in Ht as [Ht Hw].
    apply In_days_back in Ht as (j & Hj & ->).
    assert (Hjk : (j < k)%nat).
    { pose proof (Nat.Div0.mul_div_le k 7). lia. }
    specialize (Hbad j Hjk). unfold AnchorSplit.not_business_day in Hbad.
    unfold is_weekday in Hw. apply Z.ltb_lt in Hw.
    apply orb_true_iff in Hbad as [Hwe|Hh].
    + apply Z.leb_le in Hwe. lia.
    + apply existsb_exists in Hh as (h & Hin & Heq).
      apply Z.eqb_eq in Heq. now rewrite Heq.
Qed.

Lemma snap_back_run hols : forall fuel a,
  exists k : nat,
    (k <= fuel)%nat /\
    AnchorSplit.snap_back hols fuel a = a - Timedelta_days (Z.of_nat k) /\
    (forall j, (j < k)%nat ->
       AnchorSplit.not_business_day hols (a - Timedelta_days (Z.of_nat j)) = true) /\
    (AnchorSplit.not_business_day hols (AnchorSplit.snap_back hols fuel a) = false
     \/ k = fuel) /\
    (AnchorSplit.not_business_day hols (AnchorSplit.snap_back hols fuel a) = false ->
     AnchorSplit.snaps hols a (AnchorSplit.snap_back hols fuel a)).
Proof.
  assert (Hzero : forall a, a = a - Timedelta_days (Z.of_nat 0))
    by (intros a; unfold Timedelta_days; cbn; lia).
  induction fuel as [|fuel IH]; intros a; cbn [AnchorSplit.snap_back];
    destruct (AnchorSplit.not_business_day hols a) eqn:E.
  - exists 0%nat. rewrite E.
    split; [lia|]. split; [apply Hzero|]. split; [intros j Hj; lia|].
    split; [now right|discriminate].
  - exists 0%nat. rewrite E.
    split; [lia|]. split; [apply Hzero|]. split; [intros j Hj; lia|].
    split; [now left|]. intros _. now constructor.
  - destruct (IH (a - Timedelta_days 1)) as (k & Hk & Hr & Hbad & Hend & Hsn).
    exists (S k).
    split; [lia|].
    split; [rewrite Hr; unfold Timedelta_days; lia|].
    split.
    { intros j Hj. destruct j as [|j].
      - rewrite <- Hzero. exact E.
      - replace (a - Timedelta_days (Z.of_nat (S j)))
          with (a - Timedelta_days 1 - Timedelta_days (Z.of_nat j))
          by (unfold Timedelta_days; lia).
        apply Hbad. lia. }
    split; [destruct Hend as [Hend| ->]; [now left|now right]|].
    intros F. apply AnchorSplit.snaps_step; auto.
  - exists 0%nat. rewrite E.
    split; [lia|]. split; [apply Hzero|]. split; [intros j Hj; lia|].
    split; [now left|]. intros _. now constructor.
Qed.

(** The loop always exits within [snap_fuel] iterations. *)
Lemma snap_back_lands hols a :
  let r := AnchorSplit.snap_back hols (AnchorSplit.snap_fuel hols) a in
  AnchorSplit.not_business_day hols r = false /\
  AnchorSplit.snaps hols a r /\
  exists k : nat,
    r = a - Timedelta_days (Z.of_nat k) /\
    (forall j, (j < k)%nat ->
       AnchorSplit.not_business_day hols (a - Timedelta_days (Z.of_nat j)) = true) /\
    (k <= 7 * (length hols / 5) + 6)%nat.
Proof.
  intros r. subst r.
  destruct (snap_back_run hols (AnchorSplit.snap_fuel hols) a)
    as (k & Hk & Hr & Hbad & Hend & Hsn).
  assert (Hgood : AnchorSplit.not_business_day hols
            (AnchorSplit.snap_back hols (AnchorSplit.snap_fuel hols) a) = false).
  { destruct Hend as [Hg|Hf]; [exact Hg|].
    destruct (AnchorSplit.not_business_day hols
                (AnchorSplit.snap_back hols (AnchorSplit.snap_fuel hols) a)) eqn:E;
      [exfalso|reflexivity].
    assert (Hall : forall j, (j < S k)%nat ->
      AnchorSplit.not_business_day hols (a - Timedelta_days (Z.of_nat j)) = true).
    { intros j Hj. destruct (Nat.eq_dec j k) as [->|Hne].
      - now rewrite <- Hr.
      - apply Hbad. lia. }
    apply holidays_in_a_run in Hall.
    subst k. unfold AnchorSplit.snap_fuel in Hall.
    set (q := (length hols / 5)%nat) in *.
    assert (Hq : (S (7 * q + 7) / 7 = q + 1)%nat)
      by (symmetry; apply Nat.div_unique with 1%nat; lia).
    rewrite Hq in Hall.
    pose proof (Nat.div_mod_eq (length hols) 5).
    pose proof (Nat.mod_upper_bound (length hols) 5). lia. }
  split; [exact Hgood|]. split; [auto|].
  exists k. split; [exact Hr|]. split; [exact Hbad|].
  pose proof (holidays_in_a_run hols a k Hbad) as Hb.
  pose proof (Nat.div_mod_eq k 7). pose proof (Nat.mod_upper_bound k 7).
  pose proof (Nat.div_mod_eq (length hols) 5).
  pose proof (Nat.mod_upper_bound (length hols) 5).
  assert (k / 7 <= length hols / 5)%nat; [|lia].
  apply Nat.div_le_lower_bound; lia.
Qed.

(* ================================================================== *)
(** ** [AnchorSplit.split]: the year walk *)
(* ================================================================== *)

Lemma In_where_from mask : forall s i,
  In i (where_from s mask) <->
  exists j, i = (s + j)%nat /\ nth_error mask j = Some true.
Proof.
  induction mask as [|b mask IH]; intros s i; cbn [where_from].
  - split; [intros []|]. intros (j & _ & Hj). destruct j; discriminate.
  - assert (Hrest : In i (where_from (S s) mask) <->
                    exists j, i = (s + S j)%nat /\ nth_error mask j = Some true).
    { rewrite IH. split; intros (j & -> & Hj); exists j; split; auto; lia. }
    destruct b; cbn [In]; rewrite Hrest; split.
    + intros [<-|(j & -> & Hj)].
      * exists 0%nat. split; [lia|reflexivity].
      * exists (S j). auto.
    + intros ([|j] & -> & Hj).
      * left. lia.
      * right. exists j. auto.
    + intros (j & -> & Hj). exists (S j). auto.
    + intros ([|j] & -> & Hj); [discriminate|]. exists j. auto.
Qed.

Lemma In_np_where {A} (p : A -> bool) (l : list A) i :
  In i (np_where (map p l)) <->
  exists x, nth_error l i = Some x /\ p x = true.
Proof.
  unfold np_where. rewrite In_where_from. cbn [Nat.add]. split.
  - intros (j & -> & Hj). rewrite nth_error_map in Hj.
    destruct (nth_error l j) as [x|]; [|discriminate].
    exists x. split; [reflexivity|]. now injection Hj.
  - intros (x & Hx & Hp). exists i. split; [reflexivity|].
    rewrite nth_error_map, Hx. cbn. now rewrite Hp.
Qed.

Section AnchorSplitLemmas.
Context {P : Pandas}.
Variable self : AnchorSplit.t.
Variable dates : list Timestamp.

Local Abbreviation anchor_of := (AnchorSplit._anchor_for_year self).
Local Abbreviation loop := (AnchorSplit.split_loop self dates).
Local Abbreviation from := (AnchorSplit.split_from self dates).
Local Abbreviation body := (AnchorSplit.loop_body self dates).

Lemma In_train_positions anchor i :
  In i (AnchorSplit.train_positions dates anchor) <->
  exists d, nth_error dates i = Some d /\ d < anchor.
Proof.
  unfold AnchorSplit.train_positions. rewrite In_np_where.
  split; intros (d & Hd & H); exists d; split; auto; now apply Z.ltb_lt.
Qed.

Lemma In_test_positions anchor test_end i :
  In i (AnchorSplit.test_positions dates anchor test_end) <->
  exists d, nth_error dates i = Some d /\ anchor <= d <= test_end.
Proof.
  unfold AnchorSplit.test_positions. rewrite In_np_where.
  split; intros (d & Hd & H); exists d; split; auto.
  - apply andb_true_iff in H as [H1 H2].
    apply Z.leb_le in H1. apply Z.leb_le in H2. lia.
  - apply andb_true_iff. split; apply Z.leb_le; lia.
Qed.

Lemma loop_S fuel folds year d0 ds :
  dates = d0 :: ds ->
  folds < AnchorSplit.n_splits self ->
  Calendar.year d0 <= year ->
  loop (S fuel) folds year = body (loop fuel) folds year.
Proof.
  intros Hd Hf Hy. cbn [AnchorSplit.split_loop]. rewrite Hd.
  apply Z.ltb_lt in Hf. apply Z.leb_le in Hy. now rewrite Hf, Hy.
Qed.

Lemma loop_done fuel folds year :
  AnchorSplit.n_splits self <= folds -> loop fuel folds year = [].
Proof.
  intros H. apply Z.ltb_ge in H.
  destruct fuel; cbn [AnchorSplit.split_loop]; now rewrite H.
Qed.

Lemma loop_before_first fuel folds year d0 ds :
  dates = d0 :: ds -> year < Calendar.year d0 -> loop fuel folds year = [].
Proof.
  intros Hd H. apply Z.leb_gt in H.
  destruct fuel; cbn [AnchorSplit.split_loop]; rewrite Hd, H; cbn [negb];
    now destruct (folds <? AnchorSplit.n_splits self).
Qed.

Lemma loop_no_dates fuel folds year :
  dates = [] -> folds < AnchorSplit.n_splits self ->
  exists e, loop fuel folds year = [Raise e].
Proof.
  intros Hd H. apply Z.ltb_lt in H.
  destruct fuel; cbn [AnchorSplit.split_loop]; rewrite Hd, H; cbn [negb];
    eexists; reflexivity.
Qed.

(** Fuel beyond the years left changes nothing. *)
Lemma split_loop_fuel : forall fuel folds year,
  (AnchorSplit.years_left dates year <= fuel)%nat ->
  loop fuel folds year = from folds year.
Proof.
  unfold AnchorSplit.split_from.
  assert (Hgen : forall f1 f2 folds year,
    (AnchorSplit.years_left dates year <= f1)%nat ->
    (AnchorSplit.years_left dates year <= f2)%nat ->
    loop f1 folds year = loop f2 folds year).
  { induction f1 as [|f1 IH]; intros f2 folds year H1 H2.
    - destruct (Z.lt_ge_cases folds (AnchorSplit.n_splits self)) as [Hf|Hf];
        [|now rewrite !loop_done].
      destruct dates as [|d0 ds] eqn:Hd.
      + destruct f2; cbn [AnchorSplit.split_loop]; reflexivity.
      + cbn [AnchorSplit.years_left] in H1.
        rewrite <- Hd.
        rewrite !(loop_before_first _ _ _ d0 ds) by (auto; lia). reflexivity.
    - destruct (Z.lt_ge_cases folds (AnchorSplit.n_splits self)) as [Hf|Hf];
        [|now rewrite !loop_done].
      destruct dates as [|d0 ds] eqn:Hd.
      + destruct f2; cbn [AnchorSplit.split_loop]; reflexivity.
      + rewrite <- Hd.
        destruct (Z.lt_ge_cases year (Calendar.year d0)) as [Hy|Hy];
          [rewrite !(loop_before_first _ _ _ d0 ds) by auto; reflexivity|].
        cbn [AnchorSplit.years_left] in H1, H2.
        destruct f2 as [|f2]; [lia|].
        rewrite !(loop_S _ _ _ d0 ds) by (auto; lia).
        unfold AnchorSplit.loop_body.
        assert (Hl : forall fo, loop f1 fo (year - 1) = loop f2 fo (year - 1)).
        { intros fo. rewrite <- Hd in IH. apply IH; rewrite Hd;
            cbn [AnchorSplit.years_left]; lia. }
        now rewrite !Hl. }
  intros. apply Hgen; auto.
Qed.

(** The loop stops when it has yielded [n_splits] folds. *)
Lemma split_from_done folds year :
  AnchorSplit.n_splits self <= folds -> from folds year = [].
Proof. apply loop_done. Qed.

(** The loop stops below the year of the first date. *)
Lemma split_from_before_first folds year d0 ds :
  dates = d0 :: ds -> year < Calendar.year d0 -> from folds year = [].
Proof. apply loop_before_first. Qed.

(** Otherwise it runs one iteration and goes on from the year before. *)
Lemma split_from_step folds year d0 ds :
  dates = d0 :: ds ->
  folds < AnchorSplit.n_splits self ->
  Calendar.year d0 <= year ->
  from folds year = body from folds year.
Proof.
  intros Hd Hf Hy. unfold AnchorSplit.split_from at 1.
  assert (Hyl : AnchorSplit.years_left dates year
                = S (AnchorSplit.years_left dates (year - 1))).
  { rewrite Hd. cbn [AnchorSplit.years_left].
    rewrite <- Z2Nat.inj_succ by lia. f_equal. lia. }
  rewrite Hyl, (loop_S _ _ _ d0 ds) by auto.
  unfold AnchorSplit.loop_body, AnchorSplit.split_from. reflexivity.
Qed.

End AnchorSplitLemmas.

Lemma folds_of_app {I} (a b : list (event I)) :
  folds_of (a ++ b) = folds_of a ++ folds_of b.
Proof.
  induction a as [|e a IH]; [reflexivity|].
  destruct e; cbn [app folds_of]; now rewrite IH.
Qed.


Section AnchorSplitWalk.
Context {P : Pandas}.
Variable self : AnchorSplit.t.
Variable dates : list Timestamp.

Local Abbreviation anchor_of := (AnchorSplit._anchor_for_year self).
Local Abbreviation loop := (AnchorSplit.split_loop self dates).
Local Abbreviation from := (AnchorSplit.split_from self dates).

(** The three ways the loop condition ends the generator, or one more
    iteration. *)
Lemma loop_cases fuel folds year :
  loop fuel folds year = []
  \/ (dates = [] /\ exists e, loop fuel folds year = [Raise e])
  \/ (exists d0 ds fuel',
        dates = d0 :: ds /\ fuel = S fuel' /\
        folds < AnchorSplit.n_splits self /\ Calendar.year d0 <= year /\
        loop fuel folds year
        = AnchorSplit.loop_body self dates (loop fuel') folds year).
Proof.
  destruct (Z.lt_ge_cases folds (AnchorSplit.n_splits self)) as [Hf|Hf];
    [|left; now apply loop_done].
  destruct dates as [|d0 ds] eqn:Hd.
  - right; left. split; [reflexivity|]. rewrite <- Hd.
    apply loop_no_dates; auto.
  - rewrite <- Hd.
    destruct (Z.lt_ge_cases year (Calendar.year d0)) as [Hy|Hy];
      [left; now apply (loop_before_first _ _ _ _ _ d0 ds)|].
    destruct fuel as [|fuel'].
    + left. cbn [AnchorSplit.split_loop]. rewrite Hd.
      now destruct (negb (folds <? AnchorSplit.n_splits self)),
                   (negb (Calendar.year d0 <=? year)).
    + right; right. exists d0, ds, fuel'.
      split; [exact Hd|]. split; [reflexivity|].
      split; [lia|]. split; [lia|].
      apply (loop_S _ _ _ _ _ d0 ds); auto; lia.
Qed.

(** Case analysis on the loop at the state [(folds, year)]. *)
Ltac loop_cases_with f folds year :=
  destruct (loop_cases f folds year)
    as [E|[(Hd & e & E)|(d0 & ds & f' & Hd & Hf & Hlt & Hy & E)]].

Ltac loop_cases_at folds year :=
  match goal with
  | |- context [AnchorSplit.split_loop _ _ ?f folds year] =>
      loop_cases_with f folds year
  | H : context [AnchorSplit.split_loop _ _ ?f folds year] |- _ =>
      loop_cases_with f folds year
  end.

(** Every yielded fold is the fold of a year the walk has reached, with a
    non-empty test window, and no anchor from that year up to the
    starting year is before [min_date]. *)
Lemma loop_yields : forall fuel folds year tr te,
  In (Yield tr te) (loop fuel folds year) ->
  exists y, y <= year /\
    (tr, te) = AnchorSplit.fold_of_year self dates y /\ te <> [] /\
    forall y', y <= y' <= year ->
      AnchorSplit.before_min_date self (anchor_of y') = false.
Proof.
  induction fuel as [|fuel IH]; intros folds year tr te Hin;
    loop_cases_at folds year;
    rewrite E in Hin; try (now destruct Hin); try discriminate Hf.
  injection Hf as <-. unfold AnchorSplit.loop_body in Hin.
  destruct (AnchorSplit.before_min_date self (anchor_of year)) eqn:Hmd;
    [now destruct Hin|].
  assert (Hnext : forall fo, In (Yield tr te) (loop fuel fo (year - 1)) ->
    exists y, y <= year /\
      (tr, te) = AnchorSplit.fold_of_year self dates y /\ te <> [] /\
      forall y', y <= y' <= year ->
        AnchorSplit.before_min_date self (anchor_of y') = false).
  { intros fo H. destruct (IH _ _ _ _ H) as (y & Hy1 & Hfy & Hne & Hall).
    exists y. split; [lia|]. split; [auto|]. split; [auto|].
    intros y' Hy'. destruct (Z.eq_dec y' year) as [->|Hneq]; [auto|].
    apply Hall. lia. }
  destruct (AnchorSplit.test_positions dates (anchor_of year)
              (AnchorSplit.test_end_of self (anchor_of year))) as [|i te'] eqn:Ht;
    [eauto|].
  apply in_app_or in Hin as [Hin|[Hin|Hin]]; [| |eauto].
  - destruct (length (AnchorSplit.train_positions dates (anchor_of year)) <? 252)%nat;
      [destruct Hin as [Hin|[]]; discriminate|destruct Hin].
  - injection Hin as <- <-. exists year. split; [lia|].
    split; [unfold AnchorSplit.fold_of_year; now rewrite Ht|].
    split; [discriminate|].
    intros y' Hy'. now replace y' with year by lia.
Qed.

(** The loop never yields more folds than remain to reach [n_splits]. *)
Lemma loop_fold_count : forall fuel folds year,
  Z.of_nat (length (folds_of (loop fuel folds year)))
  <= Z.max 0 (AnchorSplit.n_splits self - folds).
Proof.
  induction fuel as [|fuel IH]; intros folds year;
    loop_cases_at folds year;
    rewrite E; cbn [folds_of length]; try lia; try discriminate Hf.
  injection Hf as <-. unfold AnchorSplit.loop_body.
  destruct (AnchorSplit.before_min_date self (anchor_of year));
    [cbn [folds_of length]; lia|].
  destruct (AnchorSplit.test_positions dates (anchor_of year)
              (AnchorSplit.test_end_of self (anchor_of year))) as [|i te'].
  - specialize (IH folds (year - 1)). lia.
  - rewrite folds_of_app. cbn [folds_of].
    specialize (IH (folds + 1) (year - 1)).
    destruct (length (AnchorSplit.train_positions dates (anchor_of year)) <? 252)%nat;
      cbn [folds_of app length]; lia.
Qed.



End AnchorSplitWalk.

Lemma split_date_typed {P : Pandas} self X dates :
  AnchorSplit.date_typed X dates ->
  AnchorSplit.split self X
  = AnchorSplit.split_from self dates 0
      (Calendar.year (AnchorSplit.exec_date self) - 1).
Proof.
  intros (dtype & Hidx & Hsub). unfold AnchorSplit.split.
  now rewrite Hidx, Hsub.
Qed.

(* ================================================================== *)
(** ** Properties of [AnchorSplit] *)
(* ================================================================== *)

(** C9 (as stated, refuted).  Constructing an [AnchorSplit] with
    [test_size_bd = 0] is not rejected: no exception comes out of
    [__init__]. *)
Lemma init_accepts_zero_test_size :
  ~ exists e,
      AnchorSplit.__init__ (mkTimestamp 2025 1 10) 7 [] 0 None = Err e.
Proof. intros (e & He). discriminate He. Qed.

(** C9 (amended).  [__init__] validates nothing: for every argument list,
    with [test_size_bd <= 0] as well, construction succeeds and the
    instance stores [test_size_bd] as its [test_size], together with the
    weekday and the weekday ordinal of [exec_date]. *)
Theorem init_never_rejects (exec_date : Timestamp) (n_splits : Z)
    (holidays : list Timestamp) (test_size_bd : Z) (min_date : option Timestamp) :
  exists self,
    AnchorSplit.__init__ exec_date n_splits holidays test_size_bd min_date
    = Ok self
    /\ AnchorSplit.test_size self = test_size_bd
    /\ AnchorSplit.exec_date self = exec_date
    /\ AnchorSplit.n_splits self = n_splits
    /\ AnchorSplit.holidays self = holidays
    /\ AnchorSplit.min_date self = min_date
    /\ AnchorSplit._wk self = weekday exec_date
    /\ AnchorSplit._ord self = 1 + (day exec_date - 1) / 7.
Proof. eexists. split; [reflexivity|]. cbn. repeat split. Qed.

Lemma init_never_rejects_witness :
  exists self,
    AnchorSplit.__init__ (mkTimestamp 2025 1 10) 7 [] (-3) None = Ok self
    /\ AnchorSplit.test_size self = -3
    /\ AnchorSplit.exec_date self = mkTimestamp 2025 1 10
    /\ AnchorSplit.n_splits self = 7
    /\ AnchorSplit.holidays self = []
    /\ AnchorSplit.min_date self = None
    /\ AnchorSplit._wk self = weekday (mkTimestamp 2025 1 10)
    /\ AnchorSplit._ord self = 1 + (day (mkTimestamp 2025 1 10) - 1) / 7.
Proof. exact (init_never_rejects (mkTimestamp 2025 1 10) 7 [] (-3) None). Defined.

(** C4.  For a splitter built by [__init__] and every target year, the
    anchor before snapping is the first day of (year, execution month)
    plus ((execution weekday - first-day weekday) mod 7) days plus
    7 * (ordinal - 1) days, where ordinal = 1 + (exec_date.day - 1) div 7
    is the 1-based occurrence count of [exec_date]'s weekday within its
    own month; that candidate falls on [exec_date]'s weekday. *)
Theorem anchor_candidate_formula (exec_date : Timestamp) (n_splits : Z)
    (holidays : list Timestamp) (test_size_bd : Z) (min_date : option Timestamp)
    (self : AnchorSplit.t) (year : Z) :
  AnchorSplit.__init__ exec_date n_splits holidays test_size_bd min_date
  = Ok self ->
  let first := mkTimestamp year (month exec_date) 1 in
  let ordinal := 1 + (day exec_date - 1) / 7 in
  AnchorSplit.anchor_candidate self year
  = first + Timedelta_days ((weekday exec_date - weekday first) mod 7)
          + Timedelta_days (7 * (ordinal - 1))
  /\ ordinal = weekday_occurrence exec_date
  /\ weekday (AnchorSplit.anchor_candidate self year) = weekday exec_date.
Proof.
  intros Hinit first ordinal.
  assert (Hself : self =
    {| AnchorSplit.exec_date := exec_date; AnchorSplit.n_splits := n_splits;
       AnchorSplit.holidays := holidays; AnchorSplit.test_size := test_size_bd;
       AnchorSplit.min_date := min_date;
       AnchorSplit._wk := weekday exec_date;
       AnchorSplit._ord := 1 + (day exec_date - 1) / 7 |})
    by (unfold AnchorSplit.__init__ in Hinit; congruence).
  rewrite Hself. clear Hself Hinit.
  split; [|split].
  - unfold AnchorSplit.anchor_candidate. cbn [AnchorSplit.exec_date
      AnchorSplit._wk AnchorSplit._ord]. subst first ordinal.
    unfold Timedelta_days. ring.
  - subst ordinal. symmetry. apply weekday_occurrence_formula.
  - rewrite anchor_candidate_weekday; [reflexivity|].
    cbn [AnchorSplit._wk]. apply weekday_range.
Qed.

Lemma anchor_candidate_formula_witness :
  AnchorSplit.anchor_candidate Reference.demo_cv 2024 = mkTimestamp 2024 1 12
  /\ 2 = weekday_occurrence (mkTimestamp 2025 1 10)
  /\ weekday (AnchorSplit.anchor_candidate Reference.demo_cv 2024) = 4.
Proof.
  exact (anchor_candidate_formula (mkTimestamp 2025 1 10) 7 []
           42 (Some (mkTimestamp 2018 1 1)) Reference.demo_cv 2024 eq_refl).
Defined.

(** C5 (as stated, refuted).  With the weekdays 8-12 January 2024 and
    Friday 5 January 2024 as holidays, the candidate Friday 12 January
    2024 is snapped to Thursday 4 January 2024, 8 days back: the loop does
    not land within 7 days of the candidate. *)
Lemma snapping_beyond_seven_days :
  let hols := AnchorSplit.holidays Reference.holiday_week_cv in
  let candidate := AnchorSplit.anchor_candidate Reference.holiday_week_cv 2024 in
  let anchor := AnchorSplit._anchor_for_year Reference.holiday_week_cv 2024 in
  ~ (anchor <= candidate /\ 0 <= weekday anchor <= 4 /\ ~ In anchor hols
     /\ candidate - anchor <= Timedelta_days 7).
Proof.
  intros hols candidate anchor (_ & _ & _ & H).
  apply Z.leb_le in H. vm_compute in H. discriminate H.
Qed.

(** C5 (amended).  For every finite holiday list, the snapping loop of
    [_anchor_for_year] terminates, only ever moves the candidate backward,
    and lands on the latest date not after the candidate that is a weekday
    (Monday-Friday) and not in the holiday list.  It lands at most
    7 * (h div 5) + 6 days back for [h] holidays, hence within 7 days when
    there are fewer than five holidays; with more it can land farther
    back. *)
Theorem anchor_snapping (self : AnchorSplit.t) (year : Z) :
  let hols := AnchorSplit.holidays self in
  let candidate := AnchorSplit.anchor_candidate self year in
  let anchor := AnchorSplit._anchor_for_year self year in
  AnchorSplit.snaps hols candidate anchor
  /\ anchor <= candidate
  /\ 0 <= weekday anchor <= 4
  /\ ~ In anchor hols
  /\ (exists k : nat,
        anchor = candidate - Timedelta_days (Z.of_nat k)
        /\ (forall j, (j < k)%nat ->
              AnchorSplit.not_business_day hols
                (candidate - Timedelta_days (Z.of_nat j)) = true)
        /\ (k <= 7 * (length hols / 5) + 6)%nat)
  /\ ((length hols < 5)%nat -> candidate - anchor < Timedelta_days 7).
Proof.
  intros hols candidate anchor. subst anchor.
  unfold AnchorSplit._anchor_for_year. fold hols candidate.
  set (anchor := AnchorSplit.snap_back hols (AnchorSplit.snap_fuel hols) candidate).
  destruct (snap_back_lands hols candidate) as (Hgood & Hsn & k & Hr & Hbad & Hk).
  change (AnchorSplit.snap_back hols (AnchorSplit.snap_fuel hols) candidate)
    with anchor in Hgood, Hsn, Hr.
  unfold AnchorSplit.not_business_day in Hgood.
  apply orb_false_iff in Hgood as [Hwd Hh]. apply Z.leb_gt in Hwd.
  pose proof (weekday_range anchor) as Hrange.
  split; [exact Hsn|].
  split; [rewrite Hr; unfold Timedelta_days, NS_PER_DAY; lia|].
  split; [lia|].
  split.
  { intros Hin.
    assert (existsb (Z.eqb anchor) hols = true)
      by (apply existsb_exists; exists anchor; split; [auto|apply Z.eqb_refl]).
    congruence. }
  split; [exists k; auto|].
  intros Hfew.
  assert (Hq : (length hols / 5 = 0)%nat) by (apply Nat.div_small; lia).
  rewrite Hq in Hk. rewrite Hr. unfold Timedelta_days, NS_PER_DAY. lia.
Qed.

Lemma anchor_snapping_witness :
  let hols := AnchorSplit.holidays Reference.holiday_week_cv in
  let candidate := AnchorSplit.anchor_candidate Reference.holiday_week_cv 2024 in
  let anchor := AnchorSplit._anchor_for_year Reference.holiday_week_cv 2024 in
  AnchorSplit.snaps hols candidate anchor
  /\ anchor <= candidate
  /\ 0 <= weekday anchor <= 4
  /\ ~ In anchor hols
  /\ (exists k : nat,
        anchor = candidate - Timedelta_days (Z.of_nat k)
        /\ (forall j, (j < k)%nat ->
              AnchorSplit.not_business_day hols
                (candidate - Timedelta_days (Z.of_nat j)) = true)
        /\ (k <= 7 * (length hols / 5) + 6)%nat)
  /\ ((length hols < 5)%nat -> candidate - anchor < Timedelta_days 7).
Proof. exact (anchor_snapping Reference.holiday_week_cv 2024). Defined.

Lemma nil_or_In {A} (l : list A) : l = [] \/ exists x, In x l.
Proof. destruct l as [|x l]; [now left|right; exists x; now left]. Qed.

(** Train and test positions of the fold of a year lie on either side of
    that year's anchor. *)
Lemma fold_of_year_sides {P : Pandas} self dates y tr te :
  (tr, te) = AnchorSplit.fold_of_year self dates y ->
  (forall i, In i tr ->
     exists d, nth_error dates i = Some d /\ d < AnchorSplit._anchor_for_year self y)
  /\ (forall j, In j te ->
     exists d, nth_error dates j = Some d /\ AnchorSplit._anchor_for_year self y <= d).
Proof.
  unfold AnchorSplit.fold_of_year. intros H. injection H as -> ->. split.
  - intros i Hi. now apply In_train_positions in Hi.
  - intros j Hj. apply In_test_positions in Hj as (d & Hd & Hw).
    exists d. split; [auto|lia].
Qed.

(** The [AnchorSplit] half of C1: in every yielded fold the train rows
    are dated strictly before the fold's anchor and the test rows on or
    after it, so the two position sets are disjoint. *)
Lemma anchor_split_no_leakage {P : Pandas} self X dates tr te :
  AnchorSplit.date_typed X dates ->
  In (Yield tr te) (AnchorSplit.split self X) ->
  AnchorSplit.fold_separated self dates tr te.
Proof.
  intros Hty Hin. unfold AnchorSplit.fold_separated. rewrite (split_date_typed _ _ _ Hty) in Hin.
  apply loop_yields in Hin as (y & _ & Hfold & _ & _).
  destruct (fold_of_year_sides _ _ _ _ _ Hfold) as [Htr Hte].
  split; [|split].
  - intros i Hi Hi'. destruct (Htr i Hi) as (d & Hd & Hlt).
    destruct (Hte i Hi') as (d' & Hd' & Hle). rewrite Hd in Hd'.
    injection Hd' as <-. lia.
  - exists y. split; assumption.
  - intros i j di dj Hi Hj Hdi Hdj.
    destruct (Htr i Hi) as (d & Hd & Hlt).
    destruct (Hte j Hj) as (d' & Hd' & Hle).
    rewrite Hdi in Hd. rewrite Hdj in Hd'.
    injection Hd as <-. injection Hd' as <-. lia.
Qed.

(** C2.  [split] never yields more than [n_splits] folds (none when
    [n_splits] is not positive); from a loop state whose anchor is
    strictly before [min_date] the generator emits nothing more, for that
    year or any earlier one; and every fold that is yielded belongs to a
    year such that no anchor from that year up to the first year of the
    walk is before [min_date].  So fewer than [n_splits] folds may
    come out. *)
Theorem split_fold_count_ceiling {P : Pandas} (self : AnchorSplit.t)
    (X : array_like) (dates : list Timestamp) :
  AnchorSplit.date_typed X dates ->
  Z.of_nat (length (folds_of (AnchorSplit.split self X)))
  <= Z.max 0 (AnchorSplit.n_splits self)
  /\ (forall folds year min_date,
        dates <> [] ->
        AnchorSplit.min_date self = Some min_date ->
        AnchorSplit._anchor_for_year self year < min_date ->
        AnchorSplit.split_from self dates folds year = [])
  /\ (forall tr te,
        In (Yield tr te) (AnchorSplit.split self X) ->
        exists year,
          year <= Calendar.year (AnchorSplit.exec_date self) - 1
          /\ (tr, te) = AnchorSplit.fold_of_year self dates year
          /\ forall y min_date,
               year <= y <= Calendar.year (AnchorSplit.exec_date self) - 1 ->
               AnchorSplit.min_date self = Some min_date ->
               min_date <= AnchorSplit._anchor_for_year self y).
Proof.
  intros Hty. rewrite (split_date_typed _ _ _ Hty).
  split; [|split].
  - pose proof (loop_fold_count self dates
                  (AnchorSplit.years_left dates
                     (Calendar.year (AnchorSplit.exec_date self) - 1))
                  0 (Calendar.year (AnchorSplit.exec_date self) - 1)) as H.
    unfold AnchorSplit.split_from.
    replace (AnchorSplit.n_splits self - 0) with (AnchorSplit.n_splits self) in H
      by lia.
    exact H.
  - intros folds year md Hne Hmd Hlt.
    destruct dates as [|d0 ds] eqn:Hd; [contradiction|]. rewrite <- Hd.
    destruct (Z.lt_ge_cases folds (AnchorSplit.n_splits self)) as [Hf|Hf];
      [|now apply split_from_done].
    destruct (Z.lt_ge_cases year (Calendar.year d0)) as [Hy|Hy];
      [now apply (split_from_before_first _ _ _ _ d0 ds)|].
    rewrite (split_from_step _ _ _ _ d0 ds) by (auto; lia).
    unfold AnchorSplit.loop_body, AnchorSplit.before_min_date.
    rewrite Hmd. apply Z.ltb_lt in Hlt. now rewrite Hlt.
  - intros tr te Hin.
    apply loop_yields in Hin as (y & Hy & Hfold & _ & Hall).
    exists y. split; [exact Hy|]. split; [exact Hfold|].
    intros y' md Hy' Hmd. specialize (Hall y' Hy').
    unfold AnchorSplit.before_min_date in Hall. rewrite Hmd in Hall.
    now apply Z.ltb_ge in Hall.
Qed.



(** C7.  When the loop runs the iteration of some year (fewer than
    [n_splits] folds so far, the year not before the first date's, the
    anchor not before [min_date]) and no date of the dataset lies in the
    window [anchor, test_end], that year emits nothing, neither a fold
    nor a warning nor an exception, and the walk goes on with the
    previous year and the same fold counter: what the generator emits
    from there on is what it emits from the previous year; and when the
    previous year is not before the first date's, its anchor not before
    [min_date] and its test window not empty, the next thing yielded is
    the fold of the previous year, with a low-train warning, when due,
    that carries the fold number [folds + 1], the skipped year not
    counted. *)
Theorem empty_test_window_skipped {P : Pandas} (self : AnchorSplit.t)
    (dates : list Timestamp) (folds year : Z) (d0 : Timestamp)
    (ds : list Timestamp) :
  dates = d0 :: ds ->
  folds < AnchorSplit.n_splits self ->
  Calendar.year d0 <= year ->
  AnchorSplit.before_min_date self (AnchorSplit._anchor_for_year self year) = false ->
  (forall d, In d dates ->
     ~ (AnchorSplit._anchor_for_year self year <= d
        <= AnchorSplit.test_end_of self (AnchorSplit._anchor_for_year self year))) ->
  AnchorSplit.split_from self dates folds year
  = AnchorSplit.split_from self dates folds (year - 1)
  /\ (Calendar.year d0 <= year - 1 ->
      AnchorSplit.before_min_date self
        (AnchorSplit._anchor_for_year self (year - 1)) = false ->
      snd (AnchorSplit.fold_of_year self dates (year - 1)) <> [] ->
      let train := fst (AnchorSplit.fold_of_year self dates (year - 1)) in
      let test := snd (AnchorSplit.fold_of_year self dates (year - 1)) in
      AnchorSplit.split_from self dates folds year
      = (if (length train <? 252)%nat
         then [Warn (folds + 1) (length train)] else [])
        ++ Yield train test
        :: AnchorSplit.split_from self dates (folds + 1) (year - 1 - 1)).
Proof.
  intros Hd Hf Hy Hmd Hempty.
  assert (Hskip : AnchorSplit.split_from self dates folds year
                  = AnchorSplit.split_from self dates folds (year - 1)).
  { rewrite (split_from_step _ _ _ _ d0 ds) by auto.
    unfold AnchorSplit.loop_body. rewrite Hmd.
    destruct (nil_or_In (AnchorSplit.test_positions dates
                (AnchorSplit._anchor_for_year self year)
                (AnchorSplit.test_end_of self (AnchorSplit._anchor_for_year self year))))
      as [->|(i & Hi)]; [reflexivity|].
    exfalso. apply In_test_positions in Hi as (d & Hnth & Hw).
    apply (Hempty d); [|exact Hw]. now apply nth_error_In in Hnth. }
  split; [exact Hskip|].
  intros Hy' Hmd' Hne train test. rewrite Hskip.
  rewrite (split_from_step _ _ _ _ d0 ds) by auto.
  unfold AnchorSplit.loop_body. rewrite Hmd'.
  subst train test. unfold AnchorSplit.fold_of_year in *. cbn [fst snd] in *.
  destruct (AnchorSplit.test_positions dates
              (AnchorSplit._anchor_for_year self (year - 1))
              (AnchorSplit.test_end_of self
                 (AnchorSplit._anchor_for_year self (year - 1))))
    as [|i te]; [contradiction|reflexivity].
Qed.


(** C10.  When the first year of the walk has a non-empty test window
    and no date of the dataset is strictly before its anchor, the first
    things [split] emits are the low-train warning for fold 1 with 0 rows
    and then a fold with empty train positions and non-empty test
    positions; no exception precedes them. *)
Theorem empty_train_fold {P : Pandas} (self : AnchorSplit.t)
    (X : array_like) (dates : list Timestamp) (d0 : Timestamp)
    (ds : list Timestamp) :
  let year := Calendar.year (AnchorSplit.exec_date self) - 1 in
  let anchor := AnchorSplit._anchor_for_year self year in
  AnchorSplit.date_typed X dates ->
  dates = d0 :: ds ->
  0 < AnchorSplit.n_splits self ->
  Calendar.year d0 <= year ->
  AnchorSplit.before_min_date self anchor = false ->
  (forall d, In d dates -> anchor <= d) ->
  (exists d, In d dates /\ d <= AnchorSplit.test_end_of self anchor) ->
  exists te rest,
    te <> []
    /\ AnchorSplit.split self X = Warn 1 0 :: Yield [] te :: rest.
Proof.
  intros year anchor Hty Hd Hn Hy Hmd Hnone (d & Hin & Hle).
  rewrite (split_date_typed _ _ _ Hty). fold year.
  rewrite (split_from_step _ _ _ _ d0 ds) by auto.
  unfold AnchorSplit.loop_body. fold anchor. rewrite Hmd.
  destruct (nil_or_In (AnchorSplit.train_positions dates anchor))
    as [->|(i & Hi)].
  - destruct (AnchorSplit.test_positions dates anchor
                (AnchorSplit.test_end_of self anchor)) as [|j te] eqn:Ht.
    + exfalso. apply In_nth_error in Hin as (j & Hj).
      assert (Hj' : In j (AnchorSplit.test_positions dates anchor
                            (AnchorSplit.test_end_of self anchor))).
      { apply In_test_positions. exists d. split; [auto|].
        split; [apply Hnone; now apply nth_error_In in Hj|exact Hle]. }
      rewrite Ht in Hj'. destruct Hj'.
    + exists (j :: te). eexists. split; [discriminate|]. reflexivity.
  - exfalso. apply In_train_positions in Hi as (d' & Hnth & Hlt).
    apply nth_error_In in Hnth. specialize (Hnone d' Hnth). lia.
Qed.

(* ================================================================== *)
(** ** [MonthlyTimeSeriesSplit]: month buckets *)
(* ================================================================== *)

Module MonthlyLemmas.
Import MonthlyTimeSeriesSplit.

Lemma In_unique l : forall x, In x (unique l) <-> In x l.
Proof.
  induction l as [|y l IH]; intros x; [reflexivity|].
  cbn [unique In]. rewrite filter_In, IH.
  destruct (Z.eqb_spec x y) as [->|Hne]; cbn [negb].
  - split; [now left|]. intros _. now left.
  - split; [intros [H|[H _]]; auto|].
    intros [H|H]; [now left|right; now split].
Qed.

Lemma filter_StronglySorted {A} (R : A -> A -> Prop) (p : A -> bool) l :
  StronglySorted R l -> StronglySorted R (filter p l).
Proof.
  induction 1 as [|x l Hs IH Hall]; [constructor|].
  cbn [filter]. destruct (p x); [|exact IH].
  constructor; [exact IH|].
  apply Forall_forall. intros y Hy. apply filter_In in Hy as [Hy _].
  revert y Hy. now apply Forall_forall.
Qed.

(** The buckets of a chronologically ordered column come out in strictly
    increasing order. *)
Lemma unique_sorted l :
  StronglySorted Z.le l -> StronglySorted Z.lt (unique l).
Proof.
  induction 1 as [|x l Hs IH Hall]; [constructor|].
  cbn [unique]. constructor.
  - now apply filter_StronglySorted.
  - apply Forall_forall. intros y Hy. apply filter_In in Hy as [Hy Hne].
    apply (proj1 (In_unique _ _)) in Hy. rewrite Forall_forall in Hall.
    specialize (Hall y Hy).
    destruct (Z.eqb_spec y x); [discriminate|lia].
Qed.

Lemma unique_NoDup l : NoDup (unique l).
Proof.
  induction l as [|x l IH]; [constructor|].
  cbn [unique]. constructor.
  - intros Hin. apply filter_In in Hin as [_ Hne].
    now rewrite Z.eqb_refl in Hne.
  - now apply NoDup_filter.
Qed.

Lemma last_item_spec a x :
  last_item a = Some x -> a = removelast a ++ [x].
Proof.
  destruct a as [|y a]; [discriminate|].
  intros H.
  assert (Hx : x = last (y :: a) 0) by (unfold last_item in H; congruence).
  rewrite Hx. apply app_removelast_last. discriminate.
Qed.

Lemma StronglySorted_app_l {A} (R : A -> A -> Prop) l1 l2 :
  StronglySorted R (l1 ++ l2) -> StronglySorted R l1.
Proof.
  induction l1 as [|x l1 IH]; [constructor|].
  cbn [app]. intros H. apply StronglySorted_inv in H as [Hs Hall].
  constructor; [auto|].
  apply Forall_app in Hall. tauto.
Qed.

Lemma removelast_sorted (R : Z -> Z -> Prop) a :
  StronglySorted R a -> StronglySorted R (removelast a).
Proof.
  intros H. destruct (last_item a) as [x|] eqn:E.
  - apply last_item_spec in E. rewrite E in H.
    now apply StronglySorted_app_l in H.
  - destruct a; [constructor|discriminate].
Qed.


Lemma In_removelast (a : list Z) x : In x (removelast a) -> In x a.
Proof.
  intros H. destruct (last_item a) as [y|] eqn:E.
  - apply last_item_spec in E. rewrite E. apply in_or_app. now left.
  - destruct a; [exact H|discriminate].
Qed.

Lemma StronglySorted_nth (a : list Z) : StronglySorted Z.lt a ->
  forall i j u v, (i < j)%nat ->
    nth_error a i = Some u -> nth_error a j = Some v -> u < v.
Proof.
  induction 1 as [|x a Hs IH Hall]; intros i j u v Hij Hi Hj.
  - destruct i; discriminate.
  - destruct j as [|j]; [lia|]. cbn [nth_error] in Hj.
    destruct i as [|i]; cbn [nth_error] in Hi.
    + injection Hi as <-. apply nth_error_In in Hj.
      rewrite Forall_forall in Hall. now apply Hall.
    + apply (IH i j); auto; lia.
Qed.

Lemma take_spec a idx : forall vs,
  take a idx = Ok vs ->
  forall v, In v vs -> exists i, In i idx /\ nth_error a i = Some v.
Proof.
  induction idx as [|i idx IH]; intros vs H v Hv; cbn [take] in H.
  - injection H as <-. destruct Hv.
  - destruct (nth_error a i) as [w|] eqn:Hi; [|discriminate].
    destruct (take a idx) as [ws|] eqn:Ht; [|discriminate].
    injection H as <-. destruct Hv as [<-|Hv].
    + exists i. split; [now left|auto].
    + destruct (IH ws eq_refl v Hv) as (k & Hk & Hnth).
      exists k. split; [now right|auto].
Qed.

Lemma isin_In m values : isin m values = true <-> In m values.
Proof.
  unfold isin. rewrite existsb_exists. split.
  - intros (x & Hx & Heq). apply Z.eqb_eq in Heq. now subst.
  - intros H. exists m. split; [auto|apply Z.eqb_refl].
Qed.

Lemma In_rows_in X months l :
  In l (rows_in X months) <->
  exists r, In r X /\ index r = l /\ In (_Month r) months.
Proof.
  unfold rows_in. rewrite in_map_iff. split.
  - intros (r & Hl & Hr). apply filter_In in Hr as [Hr Hm].
    apply isin_In in Hm. now exists r.
  - intros (r & Hr & Hl & Hm). exists r. split; [auto|].
    apply filter_In. split; [auto|now apply isin_In].
Qed.

Lemma unique_index_inj X r1 r2 :
  unique_index X -> In r1 X -> In r2 X -> index r1 = index r2 -> r1 = r2.
Proof.
  unfold unique_index. induction X as [|r X IH]; intros Hnd H1 H2 Heq;
    [destruct H1|].
  cbn [map] in Hnd. apply NoDup_cons_iff in Hnd as [Hnotin Hnd].
  destruct H1 as [<-|H1], H2 as [<-|H2]; auto.
  - exfalso. apply Hnotin. rewrite Heq. now apply in_map.
  - exfalso. apply Hnotin. rewrite <- Heq. now apply in_map.
Qed.

(** Every fold of the [for] loop selects the rows of two lists of months
    taken from the bucket list at the positions the splitter gave. *)
Lemma yield_folds_spec X unique_months month_splits tr te :
  In (Yield tr te) (yield_folds X unique_months month_splits) ->
  exists train_month_idx test_month_idx train_months test_months,
    In (train_month_idx, test_month_idx) month_splits
    /\ take unique_months train_month_idx = Ok train_months
    /\ take unique_months test_month_idx = Ok test_months
    /\ tr = rows_in X train_months
    /\ te = rows_in X test_months.
Proof.
  induction month_splits as [|[tri tei] rest IH]; intros Hin; [destruct Hin|].
  cbn [yield_folds] in Hin.
  destruct (take unique_months tri) as [trm|e] eqn:Htr;
    [|destruct Hin as [Hin|[]]; discriminate].
  destruct (take unique_months tei) as [tem|e] eqn:Hte;
    [|destruct Hin as [Hin|[]]; discriminate].
  destruct Hin as [Hin|Hin].
  - injection Hin as <- <-. exists tri, tei, trm, tem.
    repeat split; auto. now left.
  - destruct (IH Hin) as (a & b & c & d & H1 & H2).
    exists a, b, c, d. split; [now right|exact H2].
Qed.

(** The bucket list is the list of distinct months or that list without
    its last month. *)
Lemma month_buckets_cases self X buckets :
  month_buckets self X = Ok buckets ->
  buckets = unique (map _Month X)
  \/ buckets = removelast (unique (map _Month X)).
Proof.
  unfold month_buckets.
  destruct (min_days_in_last_month self) as [k|];
    [|intros H; injection H as <-; now left].
  destruct (last_item (unique (map _Month X))) as [lm|]; [|discriminate].
  destruct (series_max _) as [mx|];
    [|intros H; injection H as <-; now left].
  destruct (mx <? k); intros H; injection H as <-; [now right|now left].
Qed.

Lemma chronological_buckets self X buckets :
  chronological X ->
  month_buckets self X = Ok buckets ->
  StronglySorted Z.lt buckets.
Proof.
  intros Hch Hb.
  assert (Hs : StronglySorted Z.lt (unique (map _Month X))).
  { apply unique_sorted. unfold chronological in Hch.
    apply Sorted_StronglySorted in Hch; [|intros a b c; apply Z.le_trans].
    clear Hb. induction X as [|r X IH]; [constructor|].
    cbn [map] in *. apply StronglySorted_inv in Hch as [Hs Hall].
    constructor; [now apply IH|].
    rewrite Forall_forall in *. intros m Hm.
    apply in_map_iff in Hm as (r' & <- & Hr').
    apply to_period_M_mono. apply Hall. now apply in_map. }
  apply month_buckets_cases in Hb as [->| ->]; [exact Hs|].
  now apply removelast_sorted.
Qed.

End MonthlyLemmas.

(* ================================================================== *)
(** ** Properties of [MonthlyTimeSeriesSplit] *)
(* ================================================================== *)

Lemma series_max_spec l m :
  MonthlyTimeSeriesSplit.series_max l = Some m ->
  In m l /\ forall x, In x l -> x <= m.
Proof.
  destruct l as [|x l]; [discriminate|].
  cbn [MonthlyTimeSeriesSplit.series_max]. intros H. injection H as <-.
  revert x. induction l as [|y l IH]; intros x; cbn [fold_left].
  - split; [now left|]. intros z [<-|[]]. lia.
  - destruct (IH (Z.max x y)) as [Hin Hmax]. split.
    + destruct Hin as [Hin|Hin]; [|now right; right].
      destruct (Z.max_spec x y) as [[_ E]|[_ E]]; rewrite E in *.
      * right; now left.
      * now left.
    + intros z [<-|[<-|Hz]].
      * specialize (Hmax (Z.max x y) (or_introl eq_refl)). lia.
      * specialize (Hmax (Z.max x y) (or_introl eq_refl)). lia.
      * apply Hmax. now right.
Qed.

Section MonthlyProperties.
Context {S : BucketSplitter}.
Import MonthlyTimeSeriesSplit MonthlyLemmas.

(** What a yielded fold is made of: the rows of two lists of months of
    the bucket list, at the positions of one fold of the bucket splitter. *)
Lemma split_fold_months self X tr te :
  In (Yield tr te) (split self X) ->
  exists buckets month_splits train_month_idx test_month_idx
         train_months test_months,
    month_buckets self X = Ok buckets
    /\ TimeSeriesSplit_split (n_splits self) (max_train_size self)
         (test_size self) (gap self) (length buckets) = Ok month_splits
    /\ In (train_month_idx, test_month_idx) month_splits
    /\ take buckets train_month_idx = Ok train_months
    /\ take buckets test_month_idx = Ok test_months
    /\ tr = rows_in X train_months
    /\ te = rows_in X test_months.
Proof.
  unfold split. intros Hin.
  destruct (month_buckets self X) as [buckets|e];
    [|destruct Hin as [Hin|[]]; discriminate].
  destruct (TimeSeriesSplit_split _ _ _ _ _) as [month_splits|e] eqn:Hs;
    [|destruct Hin as [Hin|[]]; discriminate].
  apply yield_folds_spec in Hin as (a & b & c & d & H1 & H2 & H3 & H4 & H5).
  exists buckets, month_splits, a, b, c, d. repeat split; auto.
Qed.

(** The [MonthlyTimeSeriesSplit] half of C1. *)
Lemma monthly_split_no_leakage self X tr te :
  expanding_window_contract S ->
  0 <= gap self ->
  chronological X ->
  In (Yield tr te) (split self X) ->
  fold_separated X tr te.
Proof.
  intros Hcontract Hgap Hch Hin. unfold fold_separated.
  apply split_fold_months in Hin
    as (buckets & msplits & tri & tei & trm & tem
        & Hb & Hs & Hfold & Htr & Hte & -> & ->).
  pose proof (chronological_buckets _ _ _ Hch Hb) as Hsorted.
  pose proof (Hcontract _ _ _ _ _ _ Hgap Hs) as Hord.
  rewrite Forall_forall in Hord. specialize (Hord _ Hfold). cbn [fst snd] in Hord.
  assert (Hmonths : forall m1 m2, In m1 trm -> In m2 tem -> m1 < m2).
  { intros m1 m2 H1 H2.
    destruct (take_spec _ _ _ Htr m1 H1) as (i & Hi & Hni).
    destruct (take_spec _ _ _ Hte m2 H2) as (j & Hj & Hnj).
    apply (StronglySorted_nth buckets Hsorted i j); auto. }
  assert (Hrows : forall r1 r2, In (_Month r1) trm -> In (_Month r2) tem ->
                    _Month r1 < _Month r2 /\ date r1 < date r2).
  { intros r1 r2 H1 H2. pose proof (Hmonths _ _ H1 H2) as Hlt.
    split; [exact Hlt|]. now apply to_period_M_lt. }
  exists trm, tem.
  split; [reflexivity|]. split; [reflexivity|].
  split; [exact Hmonths|]. split; [exact Hrows|].
  intros Huniq. split.
  - intros l Hl Hl'.
    apply In_rows_in in Hl as (r1 & Hr1 & <- & Hm1).
    apply In_rows_in in Hl' as (r2 & Hr2 & Heq & Hm2).
    assert (r2 = r1) by (now apply (unique_index_inj X)). subst r2.
    specialize (Hmonths _ _ Hm1 Hm2). lia.
  - intros r1 r2 HX1 HX2 H1 H2.
    apply In_rows_in in H1 as (r1' & Hr1' & Heq1 & Hm1).
    apply In_rows_in in H2 as (r2' & Hr2' & Heq2 & Hm2).
    assert (r1' = r1) by (now apply (unique_index_inj X)).
    assert (r2' = r2) by (now apply (unique_index_inj X)).
    subst. now apply Hrows.
Qed.

Lemma StronglySorted_lt_last (l : list Z) x :
  StronglySorted Z.lt (l ++ [x]) -> forall y, In y l -> y < x.
Proof.
  induction l as [|z l IH]; intros H y Hy; [destruct Hy|].
  cbn [app] in H. apply StronglySorted_inv in H as [Hs Hall].
  destruct Hy as [<-|Hy]; [|now apply IH].
  rewrite Forall_forall in Hall. apply Hall. apply in_or_app. right. now left.
Qed.

Lemma chronological_unique_months (X : DataFrame) :
  chronological X -> StronglySorted Z.lt (unique (map _Month X)).
Proof.
  intros Hch. apply unique_sorted. unfold chronological in Hch.
  apply Sorted_StronglySorted in Hch; [|intros a b c; apply Z.le_trans].
  induction X as [|r X IH]; [constructor|].
  cbn [map] in *. apply StronglySorted_inv in Hch as [Hs Hall].
  constructor; [now apply IH|].
  rewrite Forall_forall in *. intros m Hm.
  apply in_map_iff in Hm as (r' & <- & Hr').
  apply to_period_M_mono. apply Hall. now apply in_map.
Qed.




End MonthlyProperties.

Lemma In_py_slice n lo hi i :
  0 <= n ->
  In i (Reference.py_slice n lo hi) ->
  let clip x := if x <? 0 then Z.max (x + n) 0 else Z.min x n in
  clip lo <= Z.of_nat i < clip hi.
Proof.
  unfold Reference.py_slice. intros Hn H. apply in_seq in H. cbn zeta in *.
  destruct (Z.ltb_spec lo 0), (Z.ltb_spec hi 0); lia.
Qed.

Lemma In_py_range start stop step v :
  In v (Reference.py_range start stop step) ->
  exists k, 0 <= k /\ v = start + k * step
            /\ (0 < step -> k * step < stop - start)
            /\ (step < 0 -> k * step > stop - start).
Proof.
  unfold Reference.py_range. intros H.
  apply in_map_iff in H as (k & <- & Hk). apply in_seq in Hk.
  exists (Z.of_nat k). split; [lia|]. split; [reflexivity|]. split; intros Hs.
  - assert (E : (0 <? step) = true) by (apply Z.ltb_lt; lia).
    rewrite E in Hk.
    assert (Hc : Z.of_nat k < (stop - start + step - 1) / step) by lia.
    assert (Hd : step * ((stop - start + step - 1) / step)
                 <= stop - start + step - 1)
      by (apply Z.mul_div_le; lia).
    nia.
  - assert (E : (0 <? step) = false) by (apply Z.ltb_ge; lia).
    rewrite E in Hk.
    assert (Hc : Z.of_nat k < (start - stop - step - 1) / (- step)) by lia.
    assert (Hd : (- step) * ((start - stop - step - 1) / (- step))
                 <= start - stop - step - 1)
      by (apply Z.mul_div_le; lia).
    nia.
Qed.

(** The reference splitter keeps the contract of the bucket splitter. *)
Lemma reference_splitter_contract :
  expanding_window_contract Reference.splitter.
Proof.
  intros n_splits mts ts gap n folds Hgap.
  cbn [TimeSeriesSplit_split Reference.splitter].
  unfold Reference.expanding_window.
  set (tsz := match ts with Some t => t | None => Z.of_nat n / (n_splits + 1) end).
  destruct (n_splits <=? 1) eqn:H1; [discriminate|].
  destruct (Z.of_nat n <? n_splits + 1) eqn:H2; [discriminate|].
  destruct (Z.of_nat n - gap - tsz * n_splits <=? 0) eqn:H3; [discriminate|].
  destruct (tsz =? 0) eqn:H4; [discriminate|].
  apply Z.leb_gt in H1, H3. apply Z.ltb_ge in H2. apply Z.eqb_neq in H4.
  intros H. injection H as <-.
  apply Forall_forall. intros f Hf. apply in_map_iff in Hf as (v & <- & Hv).
  apply In_py_range in Hv as (k & Hk0 & -> & Hpos & Hneg).
  cbn [fst snd]. intros i j Hi Hj.
  set (test_start := Z.of_nat n - n_splits * tsz + k * tsz) in *.
  apply In_py_slice in Hj; [|lia]. cbn zeta in Hj.
  assert (Hts : 0 < tsz).
  { destruct (Z.lt_ge_cases 0 tsz) as [|Hle]; [assumption|exfalso].
    assert (Hlt : tsz < 0) by lia. specialize (Hneg Hlt).
    assert (Hstart : Z.of_nat n < test_start) by (subst test_start; nia).
    assert (Hk1 : k + 1 <= n_splits) by nia.
    assert (Hend : Z.of_nat n <= test_start + tsz) by (subst test_start; nia).
    destruct (test_start <? 0) eqn:E1; [apply Z.ltb_lt in E1; lia|].
    destruct (test_start + tsz <? 0) eqn:E2; [apply Z.ltb_lt in E2; lia|].
    lia. }
  specialize (Hpos Hts).
  assert (Hstart : gap < test_start < Z.of_nat n) by (subst test_start; nia).
  assert (Hj' : test_start <= Z.of_nat j).
  { destruct (test_start <? 0) eqn:E1; [apply Z.ltb_lt in E1; lia|]. lia. }
  assert (Hi' : Z.of_nat i < test_start); [|lia].
  assert (Hclip : forall lo, In i (Reference.py_slice (Z.of_nat n) lo (test_start - gap)) ->
                    Z.of_nat i < test_start).
  { intros lo Hin. apply In_py_slice in Hin; [|lia]. cbn zeta in Hin.
    destruct (test_start - gap <? 0) eqn:E; [apply Z.ltb_lt in E; lia|]. lia. }
  destruct mts as [m|]; [|now apply (Hclip 0)].
  destruct (negb (m =? 0) && (m <? test_start - gap)); eapply Hclip; exact Hi.
Qed.

(* ================================================================== *)
(** ** No leakage, for both splitters *)
(* ================================================================== *)

(** C1 (as stated, refuted).  On rows in chronological date order the
    train and test index sets of [MonthlyTimeSeriesSplit] can overlap:
    with [gap = -1] the first fold over [df_2023] has the rows 4 and 5 of
    March 2023 on both sides, and with an index that repeats 0, 1 the
    labels 0 and 1 are on both sides of every fold. *)
Lemma folds_overlap :
  MonthlyTimeSeriesSplit.chronological Reference.df_2023
  /\ MonthlyTimeSeriesSplit.unique_index Reference.df_2023
  /\ ~ (forall tr te,
          In (Yield tr te)
             (@MonthlyTimeSeriesSplit.split Reference.splitter
                Reference.negative_gap_cv Reference.df_2023) ->
          forall l, In l tr -> ~ In l te)
  /\ MonthlyTimeSeriesSplit.chronological Reference.df_repeated_index
  /\ ~ (forall tr te,
          In (Yield tr te)
             (@MonthlyTimeSeriesSplit.split Reference.splitter
                Reference.plain_cv Reference.df_repeated_index) ->
          forall l, In l tr -> ~ In l te).
Proof.
  split; [|split; [|split; [|split]]].
  - unfold MonthlyTimeSeriesSplit.chronological.
    repeat (constructor; try (apply Z.leb_le; vm_compute; reflexivity)).
  - unfold MonthlyTimeSeriesSplit.unique_index. cbn.
    repeat (constructor; [cbn; lia|]). constructor.
  - intros H.
    apply (H [0; 1; 2; 3; 4; 5] [4; 5]) with (l := 4).
    + vm_compute. left. reflexivity.
    + cbn. lia.
    + cbn. lia.
  - unfold MonthlyTimeSeriesSplit.chronological.
    repeat (constructor; try (apply Z.leb_le; vm_compute; reflexivity)).
  - intros H.
    apply (H [0; 1; 0; 1] [0; 1]) with (l := 0).
    + vm_compute. left. reflexivity.
    + cbn. lia.
    + cbn. lia.
Qed.

(** C1 (amended).  [AnchorSplit]: for every yielded fold, the train and
    test position sets are disjoint, every train row is dated strictly
    before the fold's anchor and every test row on or after it.
    [MonthlyTimeSeriesSplit]: for every fold yielded on rows in
    chronological date order with a unique row index, with a non-negative
    gap and a bucket splitter whose test buckets come after its train
    buckets, the train and test index sets are disjoint and every train
    row's month, hence date, is strictly before every test row's. *)
Theorem folds_no_leakage :
  (forall (S : BucketSplitter) (self : MonthlyTimeSeriesSplit.t)
          (X : MonthlyTimeSeriesSplit.DataFrame) (tr te : list Z),
      expanding_window_contract S ->
      0 <= MonthlyTimeSeriesSplit.gap self ->
      MonthlyTimeSeriesSplit.chronological X ->
      MonthlyTimeSeriesSplit.unique_index X ->
      In (Yield tr te) (MonthlyTimeSeriesSplit.split self X) ->
      (forall l, In l tr -> ~ In l te)
      /\ forall r1 r2,
           In r1 X -> In r2 X ->
           In (MonthlyTimeSeriesSplit.index r1) tr ->
           In (MonthlyTimeSeriesSplit.index r2) te ->
           MonthlyTimeSeriesSplit._Month r1 < MonthlyTimeSeriesSplit._Month r2
           /\ MonthlyTimeSeriesSplit.date r1 < MonthlyTimeSeriesSplit.date r2)
  /\ (forall (P : Pandas) (self : AnchorSplit.t) (X : array_like)
             (dates : list Timestamp) (tr te : list nat),
        AnchorSplit.date_typed X dates ->
        In (Yield tr te) (AnchorSplit.split self X) ->
        AnchorSplit.fold_separated self dates tr te).
Proof.
  split.
  - intros S self X tr te Hc Hgap Hch Huniq Hin.
    destruct (monthly_split_no_leakage self X tr te Hc Hgap Hch Hin)
      as (trm & tem & _ & _ & _ & _ & H).
    exact (H Huniq).
  - intros P self X dates tr te. apply anchor_split_no_leakage.
Qed.

(* ================================================================== *)
(** ** The properties at work on concrete inputs *)
(* ================================================================== *)

Ltac by_computation :=
  match goal with
  | |- _ <= _ => apply Z.leb_le; vm_compute; reflexivity
  | |- _ < _ => apply Z.ltb_lt; vm_compute; reflexivity
  | |- _ = _ => vm_compute; reflexivity
  end.

Lemma reference_date_typed (dates : list Z) :
  @AnchorSplit.date_typed Reference.pandas (Reference.datetime64, dates) dates.
Proof. exists Reference.datetime64. split; reflexivity. Defined.

Lemma df_2023_chronological :
  MonthlyTimeSeriesSplit.chronological Reference.df_2023.
Proof.
  unfold MonthlyTimeSeriesSplit.chronological.
  repeat (constructor; try by_computation).
Defined.

Lemma df_2023_unique_index :
  MonthlyTimeSeriesSplit.unique_index Reference.df_2023.
Proof.
  unfold MonthlyTimeSeriesSplit.unique_index. cbn.
  repeat (constructor; [cbn; lia|]). constructor.
Defined.

Lemma folds_no_leakage_witness :
  ((forall l, In l [0; 1] -> ~ In l [2; 3])
   /\ forall r1 r2,
        In r1 Reference.df_2023 -> In r2 Reference.df_2023 ->
        In (MonthlyTimeSeriesSplit.index r1) [0; 1] ->
        In (MonthlyTimeSeriesSplit.index r2) [2; 3] ->
        MonthlyTimeSeriesSplit._Month r1 < MonthlyTimeSeriesSplit._Month r2
        /\ MonthlyTimeSeriesSplit.date r1 < MonthlyTimeSeriesSplit.date r2)
  /\ @AnchorSplit.fold_separated Reference.demo_cv Reference.gap_dates
       [0%nat] [1%nat].
Proof.
  split.
  - apply (proj1 folds_no_leakage Reference.splitter Reference.monthly_cv).
    + exact reference_splitter_contract.
    + by_computation.
    + exact df_2023_chronological.
    + exact df_2023_unique_index.
    + vm_compute. left. reflexivity.
  - apply (proj2 folds_no_leakage Reference.pandas Reference.demo_cv
             (Reference.datetime64, Reference.gap_dates)).
    + apply reference_date_typed.
    + vm_compute. right. left. reflexivity.
Defined.

Lemma split_fold_count_ceiling_witness :
  Z.of_nat (length (folds_of
     (@AnchorSplit.split Reference.pandas Reference.demo_cv
        (Reference.datetime64, Reference.gap_dates))))
  <= Z.max 0 (AnchorSplit.n_splits Reference.demo_cv).
Proof.
  exact (proj1 (split_fold_count_ceiling (P := Reference.pandas)
                  Reference.demo_cv (Reference.datetime64, Reference.gap_dates)
                  Reference.gap_dates (reference_date_typed _))).
Defined.




Lemma empty_test_window_skipped_witness :
  @AnchorSplit.split_from Reference.pandas Reference.demo_cv
    Reference.gap_dates 1 2023
  = [Warn 2 0; Yield [] [0%nat]].
Proof.
  destruct (empty_test_window_skipped (P := Reference.pandas) Reference.demo_cv
              Reference.gap_dates 1 2023 (mkTimestamp 2022 1 14)
              [mkTimestamp 2024 1 12]) as [_ Hnext].
  - reflexivity.
  - by_computation.
  - by_computation.
  - by_computation.
  - intros d [<-|[<-|[]]] [H1 H2].
    + apply Z.leb_le in H1. vm_compute in H1. discriminate H1.
    + apply Z.leb_le in H2. vm_compute in H2. discriminate H2.
  - rewrite Hnext.
    + vm_compute. reflexivity.
    + by_computation.
    + by_computation.
    + vm_compute. discriminate.
Defined.


Lemma empty_train_fold_witness :
  exists te rest,
    te <> []
    /\ @AnchorSplit.split Reference.pandas Reference.demo_cv
         (Reference.datetime64, Reference.two_dates)
       = Warn 1 0 :: Yield [] te :: rest.
Proof.
  apply (empty_train_fold (P := Reference.pandas) Reference.demo_cv
           (Reference.datetime64, Reference.two_dates) Reference.two_dates
           (mkTimestamp 2024 1 12) [mkTimestamp 2024 1 15]).
  - apply reference_date_typed.
  - reflexivity.
  - by_computation.
  - by_computation.
  - by_computation.
  - intros d [<-|[<-|[]]]; by_computation.
  - exists (mkTimestamp 2024 1 12). split; [now left|by_computation].
Defined.

(* ================================================================== *)
(** ** More calendar facts *)
(* ================================================================== *)

Lemma civil_day_le_31 z : civil_day z <= 31.
Proof. unfold civil_day, mp_of. Z.div_mod_to_equations. lia. Qed.

Lemma yoe_of_doe yoe doy :
  0 <= yoe <= 399 -> 0 <= doy <= 364 ->
  yoe_of (365 * yoe + yoe / 4 - yoe / 100 + doy) = yoe.
Proof. unfold yoe_of. intros. Z.div_mod_to_equations. lia. Qed.

Lemma mp_of_doy mp d :
  0 <= mp <= 11 -> 1 <= d <= 28 ->
  mp_of ((153 * mp + 2) / 5 + d - 1) = mp.
Proof. unfold mp_of. intros. Z.div_mod_to_equations. lia. Qed.

(** Every month has the days 1 to 28: on them the civil date of a day
    number is the date it was built from. *)
Lemma civil_of_days_from_civil y m d :
  1 <= m <= 12 -> 1 <= d <= 28 ->
  civil_year (days_from_civil y m d) = y /\
  civil_month (days_from_civil y m d) = m /\
  civil_day (days_from_civil y m d) = d.
Proof.
  intros Hm Hd.
  set (y' := if m <=? 2 then y - 1 else y).
  set (era := y' / 400). set (yoe := y' - era * 400).
  set (mp := (m + 9) mod 12).
  set (doy := (153 * mp + 2) / 5 + d - 1).
  assert (Hyoe : 0 <= yoe <= 399) by (subst yoe era; Z.div_mod_to_equations; lia).
  assert (Hmp : 0 <= mp <= 11) by (subst mp; Z.div_mod_to_equations; lia).
  assert (Hdoy : 0 <= doy <= 364) by (subst doy; Z.div_mod_to_equations; lia).
  assert (Hz : days_from_civil y m d + 719468
               = era * 146097 + (365 * yoe + yoe / 4 - yoe / 100 + doy)).
  { unfold days_from_civil. fold y' era yoe mp doy. lia. }
  assert (Hdoe_range : 0 <= 365 * yoe + yoe / 4 - yoe / 100 + doy < 146097)
    by (Z.div_mod_to_equations; lia).
  assert (Hera : era_of (days_from_civil y m d) = era).
  { unfold era_of. rewrite Hz. Z.div_mod_to_equations. lia. }
  assert (Hdoe : doe_of (days_from_civil y m d)
                 = 365 * yoe + yoe / 4 - yoe / 100 + doy).
  { unfold doe_of. rewrite Hz. Z.div_mod_to_equations. lia. }
  assert (Hy : yoe_of (doe_of (days_from_civil y m d)) = yoe)
    by (rewrite Hdoe; now apply yoe_of_doe).
  assert (Hdy : doy_of (doe_of (days_from_civil y m d)) = doy).
  { unfold doy_of. rewrite Hy, Hdoe. lia. }
  assert (Hm' : mp_of (doy_of (doe_of (days_from_civil y m d))) = mp)
    by (rewrite Hdy; now apply mp_of_doy).
  assert (Hmonth : civil_month (days_from_civil y m d) = m).
  { unfold civil_month. rewrite Hm'. subst mp.
    destruct (Z.ltb_spec ((m + 9) mod 12) 10); Z.div_mod_to_equations; lia. }
  split; [|split].
  - unfold civil_year. rewrite Hmonth, Hy, Hera. subst yoe y'.
    destruct (m <=? 2); lia.
  - exact Hmonth.
  - unfold civil_day. rewrite Hdy. fold (mp_of doy).
    replace (mp_of doy) with mp by (symmetry; now apply mp_of_doy).
    subst doy. lia.
Qed.

Lemma days_from_civil_next_year y m d :
  days_from_civil y m d + 365 <= days_from_civil (y + 1) m d.
Proof.
  unfold days_from_civil. destruct (m <=? 2); Z.div_mod_to_equations; lia.
Qed.

Lemma days_from_civil_later_year m d (n : nat) : forall y,
  days_from_civil y m d + 365 * Z.of_nat n
  <= days_from_civil (y + Z.of_nat n) m d.
Proof.
  induction n as [|n IH]; intros y.
  - replace (y + Z.of_nat 0) with y by lia. lia.
  - pose proof (IH y). pose proof (days_from_civil_next_year (y + Z.of_nat n) m d).
    replace (y + Z.of_nat (S n)) with (y + Z.of_nat n + 1) by lia. lia.
Qed.

Lemma days_from_civil_year_lt y y' m d :
  y < y' -> days_from_civil y m d + 365 <= days_from_civil y' m d.
Proof.
  intros H. pose proof (days_from_civil_later_year m d (Z.to_nat (y' - y)) y) as L.
  rewrite Z2Nat.id in L by lia. replace (y + (y' - y)) with y' in L by lia. lia.
Qed.

(* ================================================================== *)
(** ** More on the anchor of a year *)
(* ================================================================== *)

Lemma not_in_existsb_eqb (x : Z) l : ~ In x l -> existsb (Z.eqb x) l = false.
Proof.
  intros H. destruct (existsb (Z.eqb x) l) eqn:E; [|reflexivity].
  exfalso. apply existsb_exists in E as (y & Hy & Heq).
  apply Z.eqb_eq in Heq. subst y. contradiction.
Qed.

Lemma snap_back_business_day hols fuel a :
  AnchorSplit.not_business_day hols a = false ->
  AnchorSplit.snap_back hols fuel a = a.
Proof. intros H. destruct fuel; cbn [AnchorSplit.snap_back]; now rewrite H. Qed.

Lemma snap_back_step hols fuel a :
  AnchorSplit.not_business_day hols a = true ->
  AnchorSplit.snap_back hols (S fuel) a
  = AnchorSplit.snap_back hols fuel (a - Timedelta_days 1).
Proof. intros H. cbn [AnchorSplit.snap_back]. now rewrite H. Qed.

Lemma snap_fuel_two hols :
  exists fuel, AnchorSplit.snap_fuel hols = S (S fuel).
Proof.
  unfold AnchorSplit.snap_fuel. exists (7 * (length hols / 5) + 5)%nat. lia.
Qed.

(** The candidate counted in whole days. *)
Lemma anchor_candidate_days self year :
  AnchorSplit.anchor_candidate self year
  = Timedelta_days
      (days_from_civil year (month (AnchorSplit.exec_date self)) 1
       + (AnchorSplit._wk self
          - weekday (mkTimestamp year (month (AnchorSplit.exec_date self)) 1)) mod 7
       + 7 * (AnchorSplit._ord self - 1)).
Proof.
  unfold AnchorSplit.anchor_candidate, mkTimestamp, Timedelta_days. ring.
Qed.

Lemma anchor_candidate_lt self y y' :
  y < y' ->
  AnchorSplit.anchor_candidate self y < AnchorSplit.anchor_candidate self y'.
Proof.
  intros H. rewrite !anchor_candidate_days.
  pose proof (days_from_civil_year_lt y y'
                (month (AnchorSplit.exec_date self)) 1 H).
  unfold Timedelta_days, NS_PER_DAY. Z.div_mod_to_equations. lia.
Qed.

(** X6.  Where the candidate is a weekday outside the holiday list it is
    the anchor; a Saturday candidate gives the Friday before and a Sunday
    candidate the Friday two days before, when that Friday is not a
    holiday. *)
Theorem anchor_weekend_rule (self : AnchorSplit.t) (year : Z) :
  let hols := AnchorSplit.holidays self in
  let candidate := AnchorSplit.anchor_candidate self year in
  let anchor := AnchorSplit._anchor_for_year self year in
  (weekday candidate <= 4 -> ~ In candidate hols -> anchor = candidate)
  /\ (weekday candidate = 5 -> ~ In (candidate - Timedelta_days 1) hols ->
      anchor = candidate - Timedelta_days 1)
  /\ (weekday candidate = 6 -> ~ In (candidate - Timedelta_days 2) hols ->
      anchor = candidate - Timedelta_days 2).
Proof.
  intros hols candidate anchor. subst anchor.
  unfold AnchorSplit._anchor_for_year. fold hols candidate.
  destruct (snap_fuel_two hols) as (fuel & ->).
  assert (Hgood : forall t, weekday t <= 4 -> ~ In t hols ->
                    AnchorSplit.not_business_day hols t = false).
  { intros t Hw Hin. unfold AnchorSplit.not_business_day.
    rewrite (not_in_existsb_eqb _ _ Hin).
    apply orb_false_iff. split; [now apply Z.leb_gt; lia|reflexivity]. }
  assert (Hweekend : forall t, 5 <= weekday t ->
                       AnchorSplit.not_business_day hols t = true).
  { intros t Hw. unfold AnchorSplit.not_business_day.
    apply orb_true_iff. left. now apply Z.leb_le. }
  split; [|split].
  - intros Hw Hin. apply snap_back_business_day. now apply Hgood.
  - intros Hw Hin. rewrite snap_back_step by (apply Hweekend; lia).
    apply snap_back_business_day. apply Hgood; [|exact Hin].
    rewrite weekday_sub_days, Hw. cbn. lia.
  - intros Hw Hin. rewrite snap_back_step by (apply Hweekend; lia).
    rewrite snap_back_step
      by (apply Hweekend; rewrite weekday_sub_days, Hw; cbn; lia).
    replace (candidate - Timedelta_days 1 - Timedelta_days 1)
      with (candidate - Timedelta_days 2) by (unfold Timedelta_days; lia).
    apply snap_back_business_day. apply Hgood; [|exact Hin].
    rewrite weekday_sub_days, Hw. cbn. lia.
Qed.

Lemma anchor_weekend_rule_witness :
  AnchorSplit._anchor_for_year Reference.demo_cv 2024
  = AnchorSplit.anchor_candidate Reference.demo_cv 2024.
Proof.
  apply (proj1 (anchor_weekend_rule Reference.demo_cv 2024)).
  - apply Z.leb_le. vm_compute. reflexivity.
  - intros [].
Defined.

(** X7.  The anchor never decreases with the year, whatever the holidays:
    the anchor of an earlier year is on or before the anchor of a later
    year, so the train positions of an earlier year's fold are among
    those of a later year's fold. *)
Theorem anchor_monotone_in_year {P : Pandas} (self : AnchorSplit.t)
    (dates : list Timestamp) (y y' : Z) :
  y <= y' ->
  AnchorSplit._anchor_for_year self y <= AnchorSplit._anchor_for_year self y'
  /\ forall i,
       In i (fst (AnchorSplit.fold_of_year self dates y)) ->
       In i (fst (AnchorSplit.fold_of_year self dates y')).
Proof.
  intros Hy.
  assert (Hanchor : AnchorSplit._anchor_for_year self y
                    <= AnchorSplit._anchor_for_year self y').
  { destruct (Z.eq_dec y y') as [->|Hne]; [lia|].
    pose proof (anchor_candidate_lt self y y' ltac:(lia)) as Hc.
    unfold AnchorSplit._anchor_for_year.
    set (hols := AnchorSplit.holidays self).
    destruct (snap_back_lands hols (AnchorSplit.anchor_candidate self y))
      as (Hgood & _ & k & Hr & _ & _).
    destruct (snap_back_lands hols (AnchorSplit.anchor_candidate self y'))
      as (_ & _ & k' & Hr' & Hbad' & _).
    rewrite Hr, Hr'. rewrite Hr in Hgood.
    rewrite !anchor_candidate_days in *.
    set (N := days_from_civil y _ 1 + _ + _) in *.
    set (N' := days_from_civil y' _ 1 + _ + _) in *.
    assert (HN : N < N') by (unfold Timedelta_days, NS_PER_DAY in Hc; lia).
    destruct (Z.le_gt_cases (N - Z.of_nat k) (N' - Z.of_nat k')) as [Hle|Hgt];
      [unfold Timedelta_days, NS_PER_DAY; lia|exfalso].
    specialize (Hbad' (Z.to_nat (N' - (N - Z.of_nat k))) ltac:(lia)).
    rewrite Z2Nat.id in Hbad' by lia.
    replace (Timedelta_days N' - Timedelta_days (N' - (N - Z.of_nat k)))
      with (Timedelta_days N - Timedelta_days (Z.of_nat k)) in Hbad'
      by (unfold Timedelta_days; lia).
    congruence. }
  split; [exact Hanchor|].
  intros i Hi. unfold AnchorSplit.fold_of_year in *. cbn [fst] in *.
  apply In_train_positions in Hi as (d & Hd & Hlt).
  apply In_train_positions. exists d. split; [exact Hd|lia].
Qed.

Lemma anchor_monotone_in_year_witness :
  AnchorSplit._anchor_for_year Reference.holiday_week_cv 2023
  <= AnchorSplit._anchor_for_year Reference.holiday_week_cv 2024.
Proof.
  exact (proj1 (anchor_monotone_in_year (P := Reference.pandas)
                  Reference.holiday_week_cv Reference.gap_dates 2023 2024
                  ltac:(lia))).
Defined.

(** X8.  For a splitter built by [__init__], the candidate of a year lies
    from 0 to 34 days after the first day of that year's execution month.
    When [exec_date] is on day 28 or earlier, the candidate is in the
    execution month of the target year, on [exec_date]'s weekday, and is
    the same occurrence of that weekday in its month as [exec_date] is in
    its own. *)
Theorem anchor_candidate_same_nth_weekday (exec_date : Timestamp)
    (n_splits : Z) (holidays : list Timestamp) (test_size_bd : Z)
    (min_date : option Timestamp) (self : AnchorSplit.t) (year : Z) :
  AnchorSplit.__init__ exec_date n_splits holidays test_size_bd min_date
  = Ok self ->
  let first := mkTimestamp year (month exec_date) 1 in
  let candidate := AnchorSplit.anchor_candidate self year in
  first <= candidate <= first + Timedelta_days 34
  /\ (day exec_date <= 28 ->
      Calendar.year candidate = year
      /\ month candidate = month exec_date
      /\ weekday candidate = weekday exec_date
      /\ weekday_occurrence candidate = weekday_occurrence exec_date).
Proof.
  intros Hinit first candidate.
  assert (Hself : self =
    {| AnchorSplit.exec_date := exec_date; AnchorSplit.n_splits := n_splits;
       AnchorSplit.holidays := holidays; AnchorSplit.test_size := test_size_bd;
       AnchorSplit.min_date := min_date;
       AnchorSplit._wk := weekday exec_date;
       AnchorSplit._ord := 1 + (day exec_date - 1) / 7 |})
    by (unfold AnchorSplit.__init__ in Hinit; congruence).
  pose proof (civil_day_pos (day_number exec_date)) as Hd1.
  pose proof (civil_day_le_31 (day_number exec_date)) as Hd31.
  fold (day exec_date) in Hd1, Hd31.
  pose proof (civil_month_range (day_number exec_date)) as Hm.
  fold (month exec_date) in Hm.
  set (delta := (weekday exec_date - weekday first) mod 7).
  set (ord := 1 + (day exec_date - 1) / 7).
  assert (Hdelta : 0 <= delta <= 6) by (subst delta; Z.div_mod_to_equations; lia).
  assert (Hord : 1 <= ord <= 5) by (subst ord; Z.div_mod_to_equations; lia).
  assert (Hc : candidate = first + Timedelta_days (delta + 7 * (ord - 1))).
  { subst candidate. rewrite Hself. reflexivity. }
  split.
  - rewrite Hc. unfold Timedelta_days, NS_PER_DAY. lia.
  - intros H28.
    assert (Hord4 : ord <= 4) by (subst ord; Z.div_mod_to_equations; lia).
    assert (Hc' : candidate
                  = mkTimestamp year (month exec_date) (1 + delta + 7 * (ord - 1))).
    { rewrite Hc. subst first.
      rewrite (mkTimestamp_day _ _ (1 + delta + 7 * (ord - 1))).
      f_equal. f_equal. lia. }
    destruct (civil_of_days_from_civil year (month exec_date)
                (1 + delta + 7 * (ord - 1)) Hm ltac:(lia))
      as (Hy & Hmo & Hda).
    assert (Hwd : weekday candidate = weekday exec_date).
    { subst candidate. rewrite anchor_candidate_weekday; rewrite Hself;
        cbn [AnchorSplit._wk]; [reflexivity|apply weekday_range]. }
    split; [|split; [|split]].
    + unfold Calendar.year. now rewrite Hc', day_number_mkTimestamp.
    + unfold month at 1. now rewrite Hc', day_number_mkTimestamp.
    + exact Hwd.
    + rewrite !weekday_occurrence_formula. fold ord.
      unfold day at 1. rewrite Hc', day_number_mkTimestamp, Hda.
      subst ord. Z.div_mod_to_equations. lia.
Qed.

Lemma anchor_candidate_same_nth_weekday_witness :
  Calendar.year (AnchorSplit.anchor_candidate Reference.demo_cv 2021) = 2021
  /\ month (AnchorSplit.anchor_candidate Reference.demo_cv 2021) = 1
  /\ weekday (AnchorSplit.anchor_candidate Reference.demo_cv 2021) = 4
  /\ weekday_occurrence (AnchorSplit.anchor_candidate Reference.demo_cv 2021) = 2.
Proof.
  apply (proj2 (anchor_candidate_same_nth_weekday (mkTimestamp 2025 1 10) 7 []
                  42 (Some (mkTimestamp 2018 1 1)) Reference.demo_cv 2021
                  eq_refl)).
  apply Z.leb_le. vm_compute. reflexivity.
Defined.

(* ================================================================== *)
(** ** More on [AnchorSplit.split] *)
(* ================================================================== *)

Lemma where_from_bounds mask : forall s i,
  In i (where_from s mask) -> (s <= i < s + length mask)%nat.
Proof.
  intros s i H. apply In_where_from in H as (j & -> & Hj).
  assert (j < length mask)%nat by (apply nth_error_Some; congruence). lia.
Qed.

Lemma where_from_increasing mask : forall s,
  StronglySorted lt (where_from s mask).
Proof.
  induction mask as [|b mask IH]; intros s; cbn [where_from]; [constructor|].
  destruct b; [|apply IH].
  constructor; [apply IH|].
  apply Forall_forall. intros i Hi. apply where_from_bounds in Hi. lia.
Qed.

Lemma where_from_none {A} (p : A -> bool) l s :
  Forall (fun x => p x = false) l ->
  where_from s (map p l) = [] /\ filter p l = [].
Proof.
  revert s. induction l as [|x l IH]; intros s H; [now split|].
  apply Forall_cons_iff in H as [Hx Hl]. cbn [map where_from filter].
  rewrite Hx. now apply IH.
Qed.

(** On sorted dates the positions before [a] are the first ones. *)
Lemma where_before_sorted a l : forall s,
  StronglySorted Z.le l ->
  where_from s (map (fun d => d <? a) l)
  = seq s (length (filter (fun d => d <? a) l)).
Proof.
  induction l as [|d l IH]; intros s Hs; [reflexivity|].
  apply StronglySorted_inv in Hs as [Hs Hall].
  cbn [map where_from filter]. destruct (Z.ltb_spec d a) as [Hlt|Hge].
  - cbn [length seq]. f_equal. now apply IH.
  - assert (Hnone : Forall (fun x => (x <? a) = false) l).
    { rewrite Forall_forall in *. intros x Hx. apply Z.ltb_ge.
      specialize (Hall x Hx). lia. }
    destruct (where_from_none (fun d => d <? a) l (S s) Hnone) as [-> ->].
    reflexivity.
Qed.

(** On sorted dates the positions in the window [a, b] follow them,
    without a hole. *)
Lemma where_window_sorted a b l : forall s,
  StronglySorted Z.le l ->
  where_from s (map (fun d => (a <=? d) && (d <=? b)) l)
  = seq (s + length (filter (fun d => d <? a) l))
        (length (filter (fun d => (a <=? d) && (d <=? b)) l)).
Proof.
  induction l as [|d l IH]; intros s Hs; [reflexivity|].
  apply StronglySorted_inv in Hs as [Hs Hall].
  cbn [map where_from filter]. destruct (Z.ltb_spec d a) as [Hlt|Hge].
  - assert (Ha : (a <=? d) = false) by (apply Z.leb_gt; lia).
    rewrite Ha. cbn [andb length]. rewrite IH by assumption.
    f_equal. lia.
  - assert (Hnone : Forall (fun x => (x <? a) = false) l).
    { rewrite Forall_forall in *. intros x Hx. apply Z.ltb_ge.
      specialize (Hall x Hx). lia. }
    pose proof (IH (S s) Hs) as IH'.
    destruct (where_from_none (fun d => d <? a) l (S s) Hnone) as [_ Hf].
    rewrite Hf in IH' |- *. cbn [length] in IH' |- *.
    assert (Ha : (a <=? d) = true) by (apply Z.leb_le; lia).
    rewrite Ha. cbn [andb]. destruct (Z.leb_spec d b) as [Hle|Hgt].
    + cbn [length seq]. rewrite IH'.
      replace (s + 0)%nat with s by lia.
      replace (S s + 0)%nat with (S s) by lia. reflexivity.
    + assert (Hout : Forall (fun x => (a <=? x) && (x <=? b) = false) l).
      { rewrite Forall_forall in *. intros x Hx. specialize (Hall x Hx).
        apply andb_false_iff. right. apply Z.leb_gt. lia. }
      destruct (where_from_none (fun d => (a <=? d) && (d <=? b)) l (S s) Hout)
        as [-> ->].
      reflexivity.
Qed.

Section AnchorSplitOrder.
Context {P : Pandas}.
Variable self : AnchorSplit.t.
Variable dates : list Timestamp.

Ltac loop_cases_in_goal folds year :=
  match goal with
  | |- context [AnchorSplit.split_loop ?s ?d ?f folds year] =>
      destruct (loop_cases s d f folds year)
        as [E|[(Hd & e & E)|(d0 & ds & f' & Hd & Hf & Hlt & Hy & E)]]
  end.

(** The folds of the loop are the folds of a strictly decreasing list of
    years between the first date's year and the starting year. *)
Lemma loop_years : forall fuel folds year,
  exists years,
    folds_of (AnchorSplit.split_loop self dates fuel folds year)
    = map (AnchorSplit.fold_of_year self dates) years
    /\ StronglySorted Z.gt years
    /\ Forall (fun y => y <= year
                        /\ exists d0 ds, dates = d0 :: ds /\ Calendar.year d0 <= y)
              years.
Proof.
  induction fuel as [|fuel IH]; intros folds year;
    loop_cases_in_goal folds year; rewrite E;
    try (exists []; repeat split; constructor); try discriminate Hf.
  injection Hf as <-. unfold AnchorSplit.loop_body.
  destruct (AnchorSplit.before_min_date self
              (AnchorSplit._anchor_for_year self year));
    [exists []; repeat split; constructor|].
  assert (Hweaken : forall years,
    Forall (fun y => y <= year - 1
                     /\ exists d0 ds, dates = d0 :: ds /\ Calendar.year d0 <= y)
           years ->
    Forall (fun y => y <= year
                     /\ exists d0 ds, dates = d0 :: ds /\ Calendar.year d0 <= y)
           years).
  { intros years H. eapply Forall_impl; [|exact H].
    intros y [H1 H2]. split; [lia|exact H2]. }
  destruct (AnchorSplit.test_positions dates
              (AnchorSplit._anchor_for_year self year)
              (AnchorSplit.test_end_of self
                 (AnchorSplit._anchor_for_year self year))) as [|i te'] eqn:Ht.
  - destruct (IH folds (year - 1)) as (years & Hfolds & Hsorted & Hall).
    exists years. split; [exact Hfolds|]. split; [exact Hsorted|auto].
  - destruct (IH (folds + 1) (year - 1)) as (years & Hfolds & Hsorted & Hall).
    exists (year :: years). rewrite folds_of_app. cbn [folds_of map].
    replace (folds_of _) with (@nil (list nat * list nat))
      by (now destruct (length _ <? 252)%nat).
    cbn [app]. split; [|split].
    + rewrite Hfolds. unfold AnchorSplit.fold_of_year at 2. now rewrite Ht.
    + constructor; [exact Hsorted|].
      eapply Forall_impl; [|exact Hall]. intros y [Hle _]. lia.
    + constructor; [|auto]. split; [lia|]. exists d0, ds. auto.
Qed.

End AnchorSplitOrder.

(** X1.  On a date/time-typed input without any row, [split] raises the
    [IndexError] of [dates[0]] before yielding anything when [n_splits]
    is positive, and emits nothing at all otherwise. *)
Theorem split_empty_index {P : Pandas} (self : AnchorSplit.t) (X : array_like) :
  AnchorSplit.date_typed X [] ->
  (0 < AnchorSplit.n_splits self ->
   exists msg, AnchorSplit.split self X = [Raise (IndexError msg)])
  /\ (AnchorSplit.n_splits self <= 0 -> AnchorSplit.split self X = []).
Proof.
  intros Hty. rewrite (split_date_typed _ _ _ Hty).
  unfold AnchorSplit.split_from. cbn [AnchorSplit.years_left AnchorSplit.split_loop].
  split; intros H.
  - apply Z.ltb_lt in H. rewrite H. cbn [negb]. eexists. reflexivity.
  - apply Z.ltb_ge in H. now rewrite H.
Qed.

Lemma split_empty_index_witness :
  exists msg,
    @AnchorSplit.split Reference.pandas Reference.demo_cv (Reference.datetime64, [])
    = [Raise (IndexError msg)].
Proof.
  apply (proj1 (split_empty_index (P := Reference.pandas) Reference.demo_cv
                  (Reference.datetime64, []) (reference_date_typed []))).
  apply Z.ltb_lt. vm_compute. reflexivity.
Defined.

(** X2.  [split] emits nothing, neither a fold nor a warning nor an
    exception, when [n_splits] is not positive, and when the first date of
    the input is in a year after [exec_date.year - 1]: no earlier year is
    there to walk back to. *)
Theorem split_yields_nothing {P : Pandas} (self : AnchorSplit.t)
    (X : array_like) (dates : list Timestamp) :
  AnchorSplit.date_typed X dates ->
  (AnchorSplit.n_splits self <= 0
   \/ exists d0 ds, dates = d0 :: ds
        /\ Calendar.year (AnchorSplit.exec_date self) - 1 < Calendar.year d0) ->
  AnchorSplit.split self X = [].
Proof.
  intros Hty H. rewrite (split_date_typed _ _ _ Hty).
  destruct H as [H|(d0 & ds & Hd & H)].
  - now apply split_from_done.
  - now apply (split_from_before_first _ _ _ _ d0 ds).
Qed.

Lemma split_yields_nothing_witness :
  @AnchorSplit.split Reference.pandas Reference.demo_cv
    (Reference.datetime64, [mkTimestamp 2025 1 2; mkTimestamp 2025 1 3])
  = [].
Proof.
  apply (split_yields_nothing (P := Reference.pandas) Reference.demo_cv _
           [mkTimestamp 2025 1 2; mkTimestamp 2025 1 3]
           (reference_date_typed _)).
  right. exists (mkTimestamp 2025 1 2), [mkTimestamp 2025 1 3].
  split; [reflexivity|]. apply Z.ltb_lt. vm_compute. reflexivity.
Defined.

(** X3.  The folds come newest first: the yielded folds are, in order,
    the folds of a strictly decreasing list of years, each between the
    year of the first date and [exec_date.year - 1]. *)
Theorem folds_newest_first {P : Pandas} (self : AnchorSplit.t)
    (X : array_like) (dates : list Timestamp) :
  AnchorSplit.date_typed X dates ->
  exists years,
    folds_of (AnchorSplit.split self X)
    = map (AnchorSplit.fold_of_year self dates) years
    /\ StronglySorted Z.gt years
    /\ Forall (fun y =>
                 y <= Calendar.year (AnchorSplit.exec_date self) - 1
                 /\ exists d0 ds, dates = d0 :: ds /\ Calendar.year d0 <= y)
              years.
Proof.
  intros Hty. rewrite (split_date_typed _ _ _ Hty). apply loop_years.
Qed.

Lemma folds_newest_first_witness :
  exists years,
    folds_of (@AnchorSplit.split Reference.pandas Reference.demo_cv
                (Reference.datetime64, Reference.gap_dates))
    = map (@AnchorSplit.fold_of_year Reference.pandas Reference.demo_cv
             Reference.gap_dates) years
    /\ StronglySorted Z.gt years
    /\ Forall (fun y =>
                 y <= Calendar.year (AnchorSplit.exec_date Reference.demo_cv) - 1
                 /\ exists d0 ds, Reference.gap_dates = d0 :: ds
                                  /\ Calendar.year d0 <= y)
              years.
Proof.
  exact (folds_newest_first (P := Reference.pandas) Reference.demo_cv
           (Reference.datetime64, Reference.gap_dates) Reference.gap_dates
           (reference_date_typed _)).
Defined.

(** X4.  Each yielded fold holds exactly the rows its anchor selects: for
    some year, the train positions are all the positions dated strictly
    before that year's anchor and the test positions all the positions
    dated in the window from the anchor to the test end, both in
    increasing order, and the test positions are not empty. *)
Theorem fold_positions_exact {P : Pandas} (self : AnchorSplit.t)
    (X : array_like) (dates : list Timestamp) (tr te : list nat) :
  AnchorSplit.date_typed X dates ->
  In (Yield tr te) (AnchorSplit.split self X) ->
  exists year,
    let anchor := AnchorSplit._anchor_for_year self year in
    let test_end := AnchorSplit.test_end_of self anchor in
    StronglySorted lt tr
    /\ StronglySorted lt te
    /\ te <> []
    /\ (forall i, In i tr <->
                  exists d, nth_error dates i = Some d /\ d < anchor)
    /\ (forall i, In i te <->
                  exists d, nth_error dates i = Some d /\ anchor <= d <= test_end).
Proof.
  intros Hty Hin. rewrite (split_date_typed _ _ _ Hty) in Hin.
  apply loop_yields in Hin as (y & _ & Hfold & Hne & _).
  unfold AnchorSplit.fold_of_year in Hfold. injection Hfold as -> ->.
  exists y. cbn zeta.
  split; [apply where_from_increasing|].
  split; [apply where_from_increasing|].
  split; [exact Hne|].
  split; intros i; [apply In_train_positions|apply In_test_positions].
Qed.

Lemma fold_positions_exact_witness :
  exists year,
    let anchor := AnchorSplit._anchor_for_year Reference.demo_cv year in
    let test_end := @AnchorSplit.test_end_of Reference.pandas Reference.demo_cv anchor in
    StronglySorted lt [0%nat]
    /\ StronglySorted lt [1%nat]
    /\ [1%nat] <> []
    /\ (forall i, In i [0%nat] <->
                  exists d, nth_error Reference.gap_dates i = Some d /\ d < anchor)
    /\ (forall i, In i [1%nat] <->
                  exists d, nth_error Reference.gap_dates i = Some d
                            /\ anchor <= d <= test_end).
Proof.
  apply (fold_positions_exact (P := Reference.pandas) Reference.demo_cv
           (Reference.datetime64, Reference.gap_dates) Reference.gap_dates).
  - apply reference_date_typed.
  - vm_compute. right. left. reflexivity.
Defined.

(** X5.  On dates in chronological order every yielded fold is two
    adjacent blocks of rows: the train positions are 0 .. k-1 and the
    test positions k .. k+m-1 with m > 0, so the test rows follow the
    train rows with no row between them. *)
Theorem fold_blocks_on_sorted_dates {P : Pandas} (self : AnchorSplit.t)
    (X : array_like) (dates : list Timestamp) (tr te : list nat) :
  AnchorSplit.date_typed X dates ->
  Sorted Z.le dates ->
  In (Yield tr te) (AnchorSplit.split self X) ->
  exists k m : nat,
    tr = seq 0 k /\ te = seq k (S m) /\ (k + S m <= length dates)%nat.
Proof.
  intros Hty Hsorted Hin. rewrite (split_date_typed _ _ _ Hty) in Hin.
  apply Sorted_StronglySorted in Hsorted; [|intros a b c; apply Z.le_trans].
  apply loop_yields in Hin as (y & _ & Hfold & Hne & _).
  unfold AnchorSplit.fold_of_year in Hfold. injection Hfold as -> ->.
  unfold AnchorSplit.train_positions, AnchorSplit.test_positions, np_where in *.
  set (a := AnchorSplit._anchor_for_year self y) in *.
  set (b := AnchorSplit.test_end_of self a) in *.
  rewrite where_before_sorted by assumption.
  pose proof (where_window_sorted a b dates 0 Hsorted) as Hw.
  cbn [Nat.add] in Hw.
  set (k := length (filter (fun d => d <? a) dates)) in *.
  destruct (length (filter (fun d => (a <=? d) && (d <=? b)) dates))
    as [|m] eqn:Hm; [rewrite Hw in Hne; now contradiction Hne|].
  exists k, m. split; [reflexivity|]. split; [exact Hw|].
  assert (Hlast : In (k + m)%nat (seq k (S m))) by (apply in_seq; lia).
  rewrite <- Hw in Hlast.
  apply where_from_bounds in Hlast. rewrite length_map in Hlast. lia.
Qed.

Lemma fold_blocks_on_sorted_dates_witness :
  exists k m : nat,
    [0%nat] = seq 0 k /\ [1%nat] = seq k (S m)
    /\ (k + S m <= length Reference.gap_dates)%nat.
Proof.
  apply (fold_blocks_on_sorted_dates (P := Reference.pandas) Reference.demo_cv
           (Reference.datetime64, Reference.gap_dates) Reference.gap_dates).
  - apply reference_date_typed.
  - repeat (constructor; try by_computation).
  - vm_compute. right. left. reflexivity.
Defined.

(* ================================================================== *)
(** ** More on [MonthlyTimeSeriesSplit] *)
(* ================================================================== *)

Section MonthlyExtras.
Context {S : BucketSplitter}.
Import MonthlyTimeSeriesSplit MonthlyLemmas.

Lemma removelast_NoDup (a : list Z) : NoDup a -> NoDup (removelast a).
Proof.
  intros H. destruct (last_item a) as [x|] eqn:E.
  - apply last_item_spec in E. rewrite E in H.
    apply NoDup_remove_1 in H. now rewrite app_nil_r in H.
  - destruct a; [constructor|discriminate].
Qed.

Lemma take_in_range (a : list Z) idx :
  Forall (fun i => (i < length a)%nat) idx ->
  take a idx = Ok (map (fun i => nth i a 0) idx).
Proof.
  induction idx as [|i idx IH]; intros H; [reflexivity|].
  apply Forall_cons_iff in H as [Hi Hrest]. cbn [take map].
  rewrite (nth_error_nth' a 0 Hi), (IH Hrest). reflexivity.
Qed.

(** On a non-empty frame the last bucket exists and has a maximum
    day-of-month, between 1 and 31. *)
Lemma last_bucket_max_day (X : DataFrame) :
  X <> [] ->
  exists last_month max_day,
    last_item (unique (map _Month X)) = Some last_month
    /\ series_max (map (fun r => day (date r))
                       (filter (fun r => _Month r =? last_month) X))
       = Some max_day
    /\ 1 <= max_day <= 31.
Proof.
  intros Hne.
  destruct (last_item (unique (map _Month X))) as [lm|] eqn:Hlast.
  2:{ destruct X; [contradiction|discriminate]. }
  assert (Hin : In lm (unique (map _Month X))).
  { rewrite (last_item_spec _ _ Hlast). apply in_or_app. right. now left. }
  apply (proj1 (In_unique _ _)) in Hin.
  apply in_map_iff in Hin as (r & Hr & HX).
  assert (Hf : In r (filter (fun r => _Month r =? lm) X))
    by (apply filter_In; split; [auto|now apply Z.eqb_eq]).
  destruct (series_max (map (fun r => day (date r))
                            (filter (fun r => _Month r =? lm) X)))
    as [mx|] eqn:Hmax.
  2:{ destruct (filter (fun r => _Month r =? lm) X); [destruct Hf|discriminate]. }
  exists lm, mx. split; [reflexivity|]. split; [exact Hmax|].
  apply series_max_spec in Hmax as [Hmx _].
  apply in_map_iff in Hmx as (r' & <- & _).
  split; [apply civil_day_pos|apply civil_day_le_31].
Qed.

Lemma month_buckets_NoDup (self : t) (X : DataFrame) (buckets : list Z) :
  month_buckets self X = Ok buckets -> NoDup buckets.
Proof.
  intros Hb. pose proof (unique_NoDup (map _Month X)) as Hnd.
  apply month_buckets_cases in Hb as [->| ->];
    [exact Hnd|now apply removelast_NoDup].
Qed.

Lemma filter_split (p : Z -> bool) (u b1 : list Z) a b2 :
  filter p u = b1 ++ a :: b2 ->
  exists u1 u2, u = u1 ++ a :: u2 /\ filter p u1 = b1 /\ filter p u2 = b2.
Proof.
  revert b1. induction u as [|x u IH]; intros b1 H.
  - destruct b1; discriminate.
  - cbn [filter] in H. destruct (p x) eqn:Hp.
    + destruct b1 as [|y b1].
      * cbn [app] in H. injection H as -> H.
        exists [], u. split; [reflexivity|]. split; [reflexivity|exact H].
      * cbn [app] in H. injection H as -> H.
        destruct (IH _ H) as (u1 & u2 & -> & H1 & H2).
        exists (y :: u1), u2. split; [reflexivity|].
        split; [cbn [filter]; now rewrite Hp, H1|exact H2].
    + destruct (IH _ H) as (u1 & u2 & -> & H1 & H2).
      exists (x :: u1), u2. split; [reflexivity|].
      split; [cbn [filter]; now rewrite Hp|exact H2].
Qed.

(** [unique] keeps the order of first appearance: when [a] comes before
    [b] in [unique l], the first [a] of [l] comes before every [b]. *)
Lemma unique_first_appearance (l : list Z) :
  forall b1 a b2 b,
    unique l = b1 ++ a :: b2 -> In b b2 ->
    exists l1 l2, l = l1 ++ a :: l2 /\ ~ In a l1 /\ ~ In b l1.
Proof.
  induction l as [|x l IH]; intros b1 a b2 b H Hb.
  - destruct b1; discriminate.
  - cbn [unique] in H. destruct b1 as [|y b1].
    + cbn [app] in H. injection H as -> _.
      exists [], l. split; [reflexivity|]. split; intros [].
    + cbn [app] in H. injection H as -> H.
      assert (Ha : In a (filter (fun z => negb (z =? y)) (unique l)))
        by (rewrite H; apply in_or_app; right; now left).
      apply filter_In in Ha as [_ Ha].
      apply negb_true_iff, Z.eqb_neq in Ha.
      apply filter_split in H as (u1 & u2 & Hu & _ & H2).
      rewrite <- H2 in Hb. apply filter_In in Hb as [Hb Hby].
      apply negb_true_iff, Z.eqb_neq in Hby.
      destruct (IH _ _ _ _ Hu Hb) as (l1 & l2 & -> & Ha1 & Hb1).
      exists (y :: l1), l2. split; [reflexivity|].
      split; intros [E|E]; congruence || contradiction.
Qed.

(** X9.  Whatever the order of the rows, the bucket list handed to the
    splitter has no duplicate, holds only months of rows of the frame,
    and is the list of distinct months in order of first appearance or
    that list without its last entry: no month but the last is ever
    dropped, and when a month comes before another in the bucket list,
    its first row comes before every row of the other in the frame. *)
Theorem month_buckets_shape (self : t) (X : DataFrame) (buckets : list Z) :
  month_buckets self X = Ok buckets ->
  NoDup buckets
  /\ (forall m, In m buckets -> exists r, In r X /\ _Month r = m)
  /\ (forall r, In r X ->
        In (_Month r) buckets
        \/ last_item (unique (map _Month X)) = Some (_Month r))
  /\ (length buckets = length (unique (map _Month X))
      \/ (1 + length buckets)%nat = length (unique (map _Month X)))
  /\ (forall b1 a b2 b,
        buckets = b1 ++ a :: b2 -> In b b2 ->
        exists l1 l2,
          map _Month X = l1 ++ a :: l2 /\ ~ In a l1 /\ ~ In b l1).
Proof.
  intros Hb. pose proof (unique_NoDup (map _Month X)) as Hnd.
  assert (Hmonths : forall m, In m (unique (map _Month X)) ->
                      exists r, In r X /\ _Month r = m).
  { intros m Hm. apply (proj1 (In_unique _ _)) in Hm.
    apply in_map_iff in Hm as (r & Hr & HX). now exists r. }
  apply month_buckets_cases in Hb as [->| ->].
  - split; [exact Hnd|]. split; [exact Hmonths|]. split; [|split; [now left|]].
    + intros r Hr. left. apply In_unique. now apply in_map.
    + apply unique_first_appearance.
  - split; [now apply removelast_NoDup|].
    split; [intros m Hm; apply Hmonths; now apply In_removelast|].
    split; [|split].
    + intros r Hr.
      assert (Hin : In (_Month r) (unique (map _Month X)))
        by (apply In_unique; now apply in_map).
      destruct (last_item (unique (map _Month X))) as [lm|] eqn:Hlast.
      * rewrite (last_item_spec _ _ Hlast) in Hin.
        apply in_app_or in Hin as [Hin|[<-|[]]]; [now left|now right].
      * destruct (unique (map _Month X)); [destruct Hin|discriminate].
    + destruct (last_item (unique (map _Month X))) as [lm|] eqn:Hlast.
      * right. rewrite (last_item_spec _ _ Hlast) at 2.
        rewrite length_app. cbn [length]. lia.
      * left. destruct (unique (map _Month X)); [reflexivity|discriminate].
    + intros b1 a b2 b Hdec Hin.
      destruct (last_item (unique (map _Month X))) as [lm|] eqn:Hlast.
      * apply (unique_first_appearance (map _Month X) b1 a (b2 ++ [lm]) b).
        -- rewrite (last_item_spec _ _ Hlast) at 1. rewrite Hdec.
           rewrite <- app_assoc. reflexivity.
        -- apply in_or_app. now left.
      * destruct (unique (map _Month X)); [|discriminate].
        cbn [removelast] in Hdec. destruct b1; discriminate.
Qed.

(** X10.  On rows in chronological date order the bucket list is strictly
    increasing, and the last of the distinct months, the one the
    [min_days_in_last_month] test looks at, is the latest month of the
    data. *)
Theorem chronological_month_buckets (self : t) (X : DataFrame)
    (buckets : list Z) :
  chronological X ->
  month_buckets self X = Ok buckets ->
  StronglySorted Z.lt buckets
  /\ forall last_month,
       last_item (unique (map _Month X)) = Some last_month ->
       forall r, In r X -> _Month r <= last_month.
Proof.
  intros Hch Hb. split; [now apply (chronological_buckets self X)|].
  intros lm Hlast r Hr.
  pose proof (chronological_unique_months X Hch) as Hs.
  assert (Hin : In (_Month r) (unique (map _Month X)))
    by (apply In_unique; now apply in_map).
  rewrite (last_item_spec _ _ Hlast) in Hs, Hin.
  apply in_app_or in Hin as [Hin|[<-|[]]]; [|lia].
  pose proof (StronglySorted_lt_last _ _ Hs _ Hin). lia.
Qed.

(** X11.  The threshold at its extremes, on a non-empty frame: a
    [min_days_in_last_month] of 1 or less never drops the last month,
    since every date has a day-of-month of at least 1, and one of 32 or
    more always drops it, since no day-of-month exceeds 31. *)
Theorem min_days_extremes (self : t) (X : DataFrame) (min_days : Z) :
  X <> [] ->
  min_days_in_last_month self = Some min_days ->
  (min_days <= 1 -> month_buckets self X = Ok (unique (map _Month X)))
  /\ (32 <= min_days ->
      month_buckets self X = Ok (removelast (unique (map _Month X)))).
Proof.
  intros Hne Hk.
  destruct (last_bucket_max_day X Hne) as (lm & mx & Hlast & Hmax & Hrange).
  unfold month_buckets. rewrite Hk, Hlast, Hmax. split; intros H.
  - assert (E : (mx <? min_days) = false) by (apply Z.ltb_ge; lia).
    now rewrite E.
  - assert (E : (mx <? min_days) = true) by (apply Z.ltb_lt; lia).
    now rewrite E.
Qed.

(** X12.  On a frame without rows: with [min_days_in_last_month] set,
    [split] raises the [IndexError] of [unique_months[-1]] and yields
    nothing; without it, the splitter is asked to split 0 buckets and an
    exception it raises is all that [split] emits. *)
Theorem split_empty_frame (self : t) :
  (forall min_days,
     min_days_in_last_month self = Some min_days ->
     exists msg, split self [] = [Raise (IndexError msg)])
  /\ (min_days_in_last_month self = None ->
      month_buckets self [] = Ok []
      /\ forall e,
           TimeSeriesSplit_split (n_splits self) (max_train_size self)
             (test_size self) (gap self) 0 = Err e ->
           split self [] = [Raise e]).
Proof.
  split.
  - intros k Hk. unfold split, month_buckets. rewrite Hk.
    cbn [map unique last_item]. eexists. reflexivity.
  - intros Hnone.
    assert (Hb : month_buckets self [] = Ok [])
      by (unfold month_buckets; now rewrite Hnone).
    split; [exact Hb|]. intros e He. unfold split. rewrite Hb.
    cbn [length]. now rewrite He.
Qed.

(** X13.  Disjointness needs no order on the rows: for a splitter that
    keeps its contract, a non-negative gap and a unique row index, the
    train and test index sets of every yielded fold are disjoint and no
    month has rows on both sides, whatever the order of the rows. *)
Theorem folds_disjoint_any_order (self : t) (X : DataFrame) (tr te : list Z) :
  expanding_window_contract S ->
  0 <= gap self ->
  unique_index X ->
  In (Yield tr te) (split self X) ->
  (forall l, In l tr -> ~ In l te)
  /\ forall r1 r2, In r1 X -> In r2 X ->
       In (index r1) tr -> In (index r2) te -> _Month r1 <> _Month r2.
Proof.
  intros Hcontract Hgap Huniq Hin.
  apply split_fold_months in Hin
    as (buckets & msplits & tri & tei & trm & tem
        & Hb & Hs & Hfold & Htr & Hte & -> & ->).
  pose proof (month_buckets_NoDup self X buckets Hb) as Hnd.
  pose proof (Hcontract _ _ _ _ _ _ Hgap Hs) as Hord.
  rewrite Forall_forall in Hord. specialize (Hord _ Hfold). cbn [fst snd] in Hord.
  assert (Hmonths : forall m, In m trm -> In m tem -> False).
  { intros m H1 H2.
    destruct (take_spec _ _ _ Htr m H1) as (i & Hi & Hni).
    destruct (take_spec _ _ _ Hte m H2) as (j & Hj & Hnj).
    specialize (Hord i j Hi Hj).
    assert (i = j); [|lia].
    apply (proj1 (NoDup_nth_error buckets) Hnd).
    - apply nth_error_Some. congruence.
    - congruence. }
  assert (Hrows : forall r1 r2, In r1 X -> In r2 X ->
            In (index r1) (rows_in X trm) -> In (index r2) (rows_in X tem) ->
            _Month r1 <> _Month r2).
  { intros r1 r2 HX1 HX2 H1 H2 Heq.
    apply In_rows_in in H1 as (r1' & Hr1' & Heq1 & Hm1).
    apply In_rows_in in H2 as (r2' & Hr2' & Heq2 & Hm2).
    assert (r1' = r1) by (now apply (unique_index_inj X)).
    assert (r2' = r2) by (now apply (unique_index_inj X)).
    subst. rewrite Heq in Hm1. eauto. }
  split; [|exact Hrows].
  intros l Hl Hl'.
  pose proof Hl as Hl1. pose proof Hl' as Hl2.
  apply In_rows_in in Hl1 as (r1 & Hr1 & <- & _).
  apply In_rows_in in Hl2 as (r2 & Hr2 & Heq & _).
  assert (r2 = r1) by (now apply (unique_index_inj X)). subst r2.
  now apply (Hrows r1 r1).
Qed.

(** X14.  An exception of the splitter is all that [split] emits (no fold
    comes before it); and when every position the splitter returns is
    within the bucket list, [split] yields exactly one fold per fold of
    the splitter, in the same order, made of the rows of the months at
    those positions, and raises nothing. *)
Theorem split_follows_splitter (self : t) (X : DataFrame) (buckets : list Z) :
  month_buckets self X = Ok buckets ->
  (forall e,
     TimeSeriesSplit_split (n_splits self) (max_train_size self)
       (test_size self) (gap self) (length buckets) = Err e ->
     split self X = [Raise e])
  /\ (forall month_splits,
        TimeSeriesSplit_split (n_splits self) (max_train_size self)
          (test_size self) (gap self) (length buckets) = Ok month_splits ->
        Forall (fun f => Forall (fun i => (i < length buckets)%nat) (fst f)
                         /\ Forall (fun i => (i < length buckets)%nat) (snd f))
               month_splits ->
        split self X
        = map (fun f =>
                 Yield (rows_in X (map (fun i => nth i buckets 0) (fst f)))
                       (rows_in X (map (fun i => nth i buckets 0) (snd f))))
              month_splits).
Proof.
  intros Hb. unfold split. rewrite Hb. split.
  - intros e He. now rewrite He.
  - intros ms Hms Hrange. rewrite Hms. clear Hms.
    induction ms as [|[tri tei] ms IH]; [reflexivity|].
    apply Forall_cons_iff in Hrange as [[H1 H2] Hrest]. cbn [fst snd] in H1, H2.
    cbn [yield_folds map fst snd].
    rewrite (take_in_range _ _ H1), (take_in_range _ _ H2).
    f_equal. now apply IH.
Qed.

(** X15.  Months are never split: in every yielded fold, under a unique
    row index, a row is in the train (test) indices exactly when its
    month is one of the fold's train (test) months, so all rows of a
    month are on the same side or on none. *)
Theorem folds_take_whole_months (self : t) (X : DataFrame) (tr te : list Z) :
  unique_index X ->
  In (Yield tr te) (split self X) ->
  exists train_months test_months,
    (forall r, In r X -> (In (index r) tr <-> In (_Month r) train_months))
    /\ (forall r, In r X -> (In (index r) te <-> In (_Month r) test_months))
    /\ (forall r r', In r X -> In r' X -> _Month r = _Month r' ->
          (In (index r) tr <-> In (index r') tr)
          /\ (In (index r) te <-> In (index r') te)).
Proof.
  intros Huniq Hin.
  apply split_fold_months in Hin
    as (buckets & msplits & tri & tei & trm & tem
        & _ & _ & _ & _ & _ & -> & ->).
  assert (Hiff : forall months r, In r X ->
            (In (index r) (rows_in X months) <-> In (_Month r) months)).
  { intros months r Hr. rewrite In_rows_in. split.
    - intros (r' & Hr' & Heq & Hm).
      assert (r' = r) by (now apply (unique_index_inj X)). now subst.
    - intros Hm. now exists r. }
  exists trm, tem. split; [apply Hiff|]. split; [apply Hiff|].
  intros r r' Hr Hr' Heq.
  rewrite !Hiff by assumption. rewrite Heq. split; reflexivity.
Qed.

End MonthlyExtras.

Lemma rev_df_2023_unique_index :
  MonthlyTimeSeriesSplit.unique_index (rev Reference.df_2023).
Proof.
  unfold MonthlyTimeSeriesSplit.unique_index. cbn.
  repeat (constructor; [cbn; lia|]). constructor.
Defined.

Lemma month_buckets_shape_witness :
  NoDup [636; 637; 638]
  /\ (forall m, In m [636; 637; 638] ->
        exists r, In r Reference.df_2023 /\ MonthlyTimeSeriesSplit._Month r = m)
  /\ (forall r, In r Reference.df_2023 ->
        In (MonthlyTimeSeriesSplit._Month r) [636; 637; 638]
        \/ MonthlyTimeSeriesSplit.last_item
             (MonthlyTimeSeriesSplit.unique
                (map MonthlyTimeSeriesSplit._Month Reference.df_2023))
           = Some (MonthlyTimeSeriesSplit._Month r))
  /\ (length [636; 637; 638]
      = length (MonthlyTimeSeriesSplit.unique
                  (map MonthlyTimeSeriesSplit._Month Reference.df_2023))
      \/ (1 + length [636; 637; 638])%nat
         = length (MonthlyTimeSeriesSplit.unique
                     (map MonthlyTimeSeriesSplit._Month Reference.df_2023)))
  /\ (forall b1 a b2 b,
        [636; 637; 638] = b1 ++ a :: b2 -> In b b2 ->
        exists l1 l2,
          map MonthlyTimeSeriesSplit._Month Reference.df_2023 = l1 ++ a :: l2
          /\ ~ In a l1 /\ ~ In b l1).
Proof.
  apply (month_buckets_shape Reference.monthly_cv Reference.df_2023).
  vm_compute. reflexivity.
Defined.

Lemma chronological_month_buckets_witness :
  StronglySorted Z.lt [636; 637; 638]
  /\ forall last_month,
       MonthlyTimeSeriesSplit.last_item
         (MonthlyTimeSeriesSplit.unique
            (map MonthlyTimeSeriesSplit._Month Reference.df_2023))
       = Some last_month ->
       forall r, In r Reference.df_2023 ->
         MonthlyTimeSeriesSplit._Month r <= last_month.
Proof.
  apply (chronological_month_buckets Reference.monthly_cv Reference.df_2023).
  - exact df_2023_chronological.
  - vm_compute. reflexivity.
Defined.

Lemma min_days_extremes_witness :
  MonthlyTimeSeriesSplit.month_buckets
    (MonthlyTimeSeriesSplit.__init__ "date" 2 None None 0 (Some 32))
    Reference.df_2023
  = Ok (removelast (MonthlyTimeSeriesSplit.unique
          (map MonthlyTimeSeriesSplit._Month Reference.df_2023))).
Proof.
  apply (proj2 (min_days_extremes
                  (MonthlyTimeSeriesSplit.__init__ "date" 2 None None 0 (Some 32))
                  Reference.df_2023 32 ltac:(discriminate) eq_refl)).
  lia.
Defined.

Lemma split_empty_frame_witness :
  exists msg,
    @MonthlyTimeSeriesSplit.split Reference.splitter Reference.monthly_cv []
    = [Raise (IndexError msg)].
Proof.
  exact (proj1 (split_empty_frame (S := Reference.splitter) Reference.monthly_cv)
           10 eq_refl).
Defined.

Lemma folds_disjoint_any_order_witness :
  (forall l, In l [7; 6; 5; 4] -> ~ In l [3; 2])
  /\ forall r1 r2,
       In r1 (rev Reference.df_2023) -> In r2 (rev Reference.df_2023) ->
       In (MonthlyTimeSeriesSplit.index r1) [7; 6; 5; 4] ->
       In (MonthlyTimeSeriesSplit.index r2) [3; 2] ->
       MonthlyTimeSeriesSplit._Month r1 <> MonthlyTimeSeriesSplit._Month r2.
Proof.
  apply (folds_disjoint_any_order (S := Reference.splitter)
           Reference.monthly_cv (rev Reference.df_2023)).
  - exact reference_splitter_contract.
  - by_computation.
  - exact rev_df_2023_unique_index.
  - vm_compute. left. reflexivity.
Defined.

Lemma split_follows_splitter_witness :
  @MonthlyTimeSeriesSplit.split Reference.splitter Reference.monthly_cv
    Reference.df_2023
  = [Yield [0; 1] [2; 3]; Yield [0; 1; 2; 3] [4; 5]].
Proof.
  rewrite (proj2 (split_follows_splitter (S := Reference.splitter)
                    Reference.monthly_cv Reference.df_2023 [636; 637; 638]
                    ltac:(vm_compute; reflexivity))
             [([0%nat], [1%nat]); ([0%nat; 1%nat], [2%nat])]
             ltac:(vm_compute; reflexivity)).
  - vm_compute. reflexivity.
  - repeat (constructor; cbn; try lia).
Defined.

Lemma folds_take_whole_months_witness :
  exists train_months test_months,
    (forall r, In r Reference.df_2023 ->
       (In (MonthlyTimeSeriesSplit.index r) [0; 1]
        <-> In (MonthlyTimeSeriesSplit._Month r) train_months))
    /\ (forall r, In r Reference.df_2023 ->
       (In (MonthlyTimeSeriesSplit.index r) [2; 3]
        <-> In (MonthlyTimeSeriesSplit._Month r) test_months))
    /\ (forall r r', In r Reference.df_2023 -> In r' Reference.df_2023 ->
          MonthlyTimeSeriesSplit._Month r = MonthlyTimeSeriesSplit._Month r' ->
          (In (MonthlyTimeSeriesSplit.index r) [0; 1]
           <-> In (MonthlyTimeSeriesSplit.index r') [0; 1])
          /\ (In (MonthlyTimeSeriesSplit.index r) [2; 3]
              <-> In (MonthlyTimeSeriesSplit.index r') [2; 3])).
Proof.
  apply (folds_take_whole_months (S := Reference.splitter)
           Reference.monthly_cv Reference.df_2023).
  - exact df_2023_unique_index.
  - vm_compute. left. reflexivity.
Defined.

(* ================================================================== *)
(** ** Test windows and [min_date]; month labels *)
(* ================================================================== *)

(** X16.  With [min_date] set, no test row of a yielded fold is dated
    before [min_date]. *)
Theorem test_rows_not_before_min_date {P : Pandas} (self : AnchorSplit.t)
    (X : array_like) (dates : list Timestamp) (min_date : Timestamp)
    (tr te : list nat) :
  AnchorSplit.date_typed X dates ->
  AnchorSplit.min_date self = Some min_date ->
  In (Yield tr te) (AnchorSplit.split self X) ->
  forall j, In j te ->
    exists d, nth_error dates j = Some d /\ min_date <= d.
Proof.
  intros Hty Hmd Hin j Hj. rewrite (split_date_typed _ _ _ Hty) in Hin.
  apply loop_yields in Hin as (y & Hy & Hfold & _ & Hall).
  specialize (Hall y ltac:(lia)).
  unfold AnchorSplit.before_min_date in Hall. rewrite Hmd in Hall.
  apply Z.ltb_ge in Hall.
  destruct (fold_of_year_sides _ _ _ _ _ Hfold) as [_ Hte].
  destruct (Hte j Hj) as (d & Hd & Hle). exists d. split; [exact Hd|lia].
Qed.

Lemma test_rows_not_before_min_date_witness :
  exists d, nth_error Reference.gap_dates 1 = Some d
            /\ mkTimestamp 2018 1 1 <= d.
Proof.
  apply (test_rows_not_before_min_date (P := Reference.pandas)
           Reference.demo_cv (Reference.datetime64, Reference.gap_dates)
           Reference.gap_dates (mkTimestamp 2018 1 1) [0%nat] [1%nat]).
  - apply reference_date_typed.
  - reflexivity.
  - vm_compute. right. left. reflexivity.
  - now left.
Defined.

Ltac split_loop_cases folds year :=
  match goal with
  | |- context [AnchorSplit.split_loop ?s ?d ?f folds year] =>
      destruct (loop_cases s d f folds year)
        as [E|[(Hd & e & E)|(d0 & ds & f' & Hd & Hf & Hlt & Hy & E)]]
  end.

Lemma loop_without_window {P : Pandas} self dates :
  dates <> [] ->
  (forall year,
     AnchorSplit.test_end_of self (AnchorSplit._anchor_for_year self year)
     < AnchorSplit._anchor_for_year self year) ->
  forall fuel folds year,
    AnchorSplit.split_loop self dates fuel folds year = [].
Proof.
  intros Hne Hback. induction fuel as [|fuel IH]; intros folds year;
    split_loop_cases folds year;
    try exact E; try contradiction; try discriminate Hf.
  injection Hf as <-. rewrite E. unfold AnchorSplit.loop_body.
  destruct (AnchorSplit.before_min_date self
              (AnchorSplit._anchor_for_year self year)); [reflexivity|].
  destruct (nil_or_In (AnchorSplit.test_positions dates
              (AnchorSplit._anchor_for_year self year)
              (AnchorSplit.test_end_of self
                 (AnchorSplit._anchor_for_year self year))))
    as [->|(i & Hi)]; [apply IH|].
  exfalso. apply In_test_positions in Hi as (d & _ & Hw).
  specialize (Hback year). lia.
Qed.

(** X17.  When the business-day offset of [test_size - 1] days ends
    before the anchor it starts from, as an offset of a negative number
    of business days does, every year's test window is empty: on a
    non-empty date/time-typed input [split] emits nothing, neither a fold
    nor a warning nor an exception. *)
Theorem backward_window_yields_nothing {P : Pandas} (self : AnchorSplit.t)
    (X : array_like) (dates : list Timestamp) :
  AnchorSplit.date_typed X dates ->
  dates <> [] ->
  (forall year,
     AnchorSplit.test_end_of self (AnchorSplit._anchor_for_year self year)
     < AnchorSplit._anchor_for_year self year) ->
  AnchorSplit.split self X = [].
Proof.
  intros Hty Hne Hback. rewrite (split_date_typed _ _ _ Hty).
  now apply loop_without_window.
Qed.

Lemma reference_roll_back_le hols fuel : forall t,
  Reference.roll hols (-1) fuel t <= t.
Proof.
  induction fuel as [|fuel IH]; intros t; cbn [Reference.roll];
    destruct (Reference.is_busday hols t); try lia.
  specialize (IH (t + Timedelta_days (-1))).
  unfold Timedelta_days, NS_PER_DAY in *. lia.
Qed.

Lemma backward_window_yields_nothing_witness :
  @AnchorSplit.split Reference.pandas
    {| AnchorSplit.exec_date := mkTimestamp 2025 1 10;
       AnchorSplit.n_splits := 7;
       AnchorSplit.holidays := [];
       AnchorSplit.test_size := 0;
       AnchorSplit.min_date := None;
       AnchorSplit._wk := 4;
       AnchorSplit._ord := 2 |}
    (Reference.datetime64, Reference.gap_dates)
  = [].
Proof.
  apply (backward_window_yields_nothing (P := Reference.pandas) _ _
           Reference.gap_dates (reference_date_typed _) ltac:(discriminate)).
  intros year. unfold AnchorSplit.test_end_of.
  cbn [add_CustomBusinessDay Reference.pandas AnchorSplit.test_size
       AnchorSplit.holidays].
  unfold Reference.busday_offset. cbn [Z.sub Z.add Z.opp Z.ltb Z.compare Z.to_nat
    Pos.to_nat Pos.iter_op Nat.add Reference.busday_steps].
  set (a := AnchorSplit._anchor_for_year _ year).
  pose proof (reference_roll_back_le [] (AnchorSplit.snap_fuel [])
                (Reference.roll [] 1 (AnchorSplit.snap_fuel []) a
                 + Timedelta_days (-1))) as Hle.
  assert (Ha : Reference.roll [] 1 (AnchorSplit.snap_fuel []) a = a).
  { destruct (snap_back_lands [] (AnchorSplit.anchor_candidate
       {| AnchorSplit.exec_date := mkTimestamp 2025 1 10;
          AnchorSplit.n_splits := 7; AnchorSplit.holidays := [];
          AnchorSplit.test_size := 0; AnchorSplit.min_date := None;
          AnchorSplit._wk := 4; AnchorSplit._ord := 2 |} year))
      as (Hgood & _).
    change (AnchorSplit.not_business_day [] a = false) in Hgood.
    unfold AnchorSplit.not_business_day in Hgood.
    apply orb_false_iff in Hgood as [Hwd _]. apply Z.leb_gt in Hwd.
    unfold AnchorSplit.snap_fuel. cbn [length Nat.div Nat.divmod fst Nat.mul Nat.add].
    cbn [Reference.roll]. unfold Reference.is_busday.
    assert (E : (weekday a <? 5) = true) by (apply Z.ltb_lt; lia).
    rewrite E. reflexivity. }
  rewrite Ha in Hle |- *.
  change (Reference.busday_steps [] (-1) (Pos.to_nat 1) a)
    with (Reference.roll [] (-1) (AnchorSplit.snap_fuel [])
            (a + Timedelta_days (-1))).
  unfold Timedelta_days, NS_PER_DAY in Hle |- *. lia.
Defined.

(** [1677 .. 2262] are the years a [pd.Timestamp] can be in. *)
Lemma from_2_four_digits (y : Z) :
  1677 <= y <= 2262 ->
  Labels.from_2 (Labels.str y)
  = (Labels.str (y mod 100 / 10) ++ Labels.str (y mod 10))%string.
Proof.
  intros Hy.
  assert (Hall : forallb
            (fun n => String.eqb
               (Labels.from_2 (Labels.str (1677 + Z.of_nat n)))
               (Labels.str ((1677 + Z.of_nat n) mod 100 / 10)
                ++ Labels.str ((1677 + Z.of_nat n) mod 10))%string)
            (seq 0 586) = true) by (vm_compute; reflexivity).
  rewrite forallb_forall in Hall.
  specialize (Hall (Z.to_nat (y - 1677)) ltac:(apply in_seq; lia)).
  rewrite Z2Nat.id in Hall by lia.
  replace (1677 + (y - 1677)) with y in Hall by lia.
  now apply String.eqb_eq.
Qed.

(** X18.  For a date in a year that a [pd.Timestamp] can hold (1677 to
    2262), the month label that [describe_splits] builds is the month
    number without padding, a slash, and the last two digits of the
    year: [4/23] for April 2023. *)
Theorem month_label_format (t : Timestamp) :
  1677 <= year t <= 2262 ->
  Labels.month_label t
  = (Labels.str (month t) ++ "/"
     ++ Labels.str (year t mod 100 / 10) ++ Labels.str (year t mod 10))%string.
Proof.
  intros Hy. unfold Labels.month_label. now rewrite from_2_four_digits.
Qed.

Lemma month_label_format_witness :
  Labels.month_label (mkTimestamp 2023 4 17) = "4/23"%string.
Proof.
  rewrite month_label_format; [vm_compute; reflexivity|].
  split; by_computation.
Defined.
